(** * Supervisor / planner / reviewer workflow of [langgraph_agents.py]

    A shallow embedding of the control logic of the LangGraph multi-agent
    system ([src/langgraph_agents.py]) and of the planner variant of the
    correction-loop test ([src/test_correction_loop.py]).

    What is embedded from the source:
    - [AgentState], the three nodes [planner_node], [reviewer_node],
      [supervisor_node], the router [router_logic];
    - the graph assembled by [build_graph] (entry point, conditional edges
      out of the supervisor, plain edges back to it) and its execution
      ([graph.stream] / [graph.invoke]).

    What is external to the repository and therefore taken as a parameter:
    - [ollama.generate] (the generation client), given per call as a function
      from model and prompt to either the response text or an exception;
    - [json.loads], [json.dumps(_, indent=2)] and [str.strip].

    The [print] calls that stand inside a [try] and write a value taken
    from the response are part of the model, since a failure to write is
    caught by the handler of that [try]; stdout is the UTF-8 stream Python
    opens on a UTF-8 terminal. *)

From Stdlib Require Import String Ascii List ZArith QArith Bool Lia.
From Stdlib Require Import DecimalString.
Import ListNotations.
Local Open Scope string_scope.
Local Open Scope Z_scope.
Set Warnings "-register-all".

(** ** Python values *)

(** A Python [float] as far as truthiness can see it. *)
Inductive pyfloat : Type :=
| FNaN
| FInfinity (negative : bool)
| FFinite (q : Q).

(** The values [json.loads] produces: [None], [bool], [int], [float], [str],
    [list] and [dict] with string keys (insertion ordered, keys unique).
    A [str] is [PStr] with its text when the text has a UTF-8 form, as all
    text that arrives from outside has.  [PStrCodes] is a [str] given by its
    code points; it stands for the strings without a UTF-8 form, which
    [json.loads] builds from an escape of a lone surrogate such as
    [\ud800]. *)
Inductive pyval : Type :=
| PNone
| PBool (b : bool)
| PInt (z : Z)
| PFloat (f : pyfloat)
| PStr (s : string)
| PList (l : list pyval)
| PDict (d : list (string * pyval))
| PStrCodes (codes : list N).

(** [Dict[str, Any]]. *)
Definition pydict : Type := list (string * pyval).

(** [bool(v)]: Python truthiness. *)
Definition truthy (v : pyval) : bool :=
  match v with
  | PNone => false
  | PBool b => b
  | PInt z => negb (z =? 0)
  | PFloat FNaN => true
  | PFloat (FInfinity _) => true
  | PFloat (FFinite q) => negb (Qnum q =? 0)
  | PStr s => negb (String.eqb s "")
  | PList l => match l with [] => false | _ :: _ => true end
  | PDict d => match d with [] => false | _ :: _ => true end
  | PStrCodes codes => match codes with [] => false | _ :: _ => true end
  end.

(** [type(v).__name__]. *)
Definition type_name (v : pyval) : string :=
  match v with
  | PNone => "NoneType"
  | PBool _ => "bool"
  | PInt _ => "int"
  | PFloat _ => "float"
  | PStr _ => "str"
  | PList _ => "list"
  | PDict _ => "dict"
  | PStrCodes _ => "str"
  end.

(** [d.get(k, default)] on a dict. *)
Fixpoint dict_get (d : pydict) (k : string) (default : pyval) : pyval :=
  match d with
  | [] => default
  | (k', v) :: rest => if String.eqb k' k then v else dict_get rest k default
  end.


(** ** Exceptions *)

(** An instance of [Exception]: its class name and [str(e)]. *)
Inductive exn : Type := Exn (cls : string) (msg : string).

Definition exn_str (e : exn) : string := let (_, msg) := e in msg.

Inductive result (A : Type) : Type :=
| Ok (a : A)
| Raise (e : exn).
Arguments Ok {A} a.
Arguments Raise {A} e.

Definition bind {A B : Type} (m : result A) (k : A -> result B) : result B :=
  match m with
  | Ok a => k a
  | Raise e => Raise e
  end.

Notation "x <- m ;; k" := (bind m (fun x => k))
  (at level 61, m at next level, right associativity).

(** [try: body  except Exception as e: handler(e)]. *)
Definition try_except {A : Type} (body : result A) (handler : exn -> A) : A :=
  match body with
  | Ok a => a
  | Raise e => handler e
  end.

(** The [AttributeError] of [v.get] on a value that has no such method. *)
Definition no_get_error (v : pyval) : exn :=
  Exn "AttributeError" ("'" ++ type_name v ++ "' object has no attribute 'get'").

(** [v.get(k, default)] on an arbitrary value: only [dict] has the method. *)
Definition method_get (v : pyval) (k : string) (default : pyval) : result pyval :=
  match v with
  | PDict d => Ok (dict_get d k default)
  | _ => Raise (no_get_error v)
  end.

(** [len(v)]. *)
Definition py_len (v : pyval) : result nat :=
  match v with
  | PStr s => Ok (String.length s)
  | PList l => Ok (List.length l)
  | PDict d => Ok (List.length d)
  | PStrCodes codes => Ok (List.length codes)
  | _ => Raise (Exn "TypeError"
                  ("object of type '" ++ type_name v ++ "' has no len()"))
  end.

(** ** Standard output

    [print] writes to the stdout Python sets up on a UTF-8 terminal:
    encoding utf-8, error handler strict.  Text with a UTF-8 form is
    written.  A [str] that holds a surrogate code point is not: the encoder
    raises [UnicodeEncodeError] for the first run of surrogates it meets. *)

Definition is_surrogate (c : N) : bool :=
  ((55296 <=? c) && (c <=? 57343))%N.

(** The first surrogate of [codes], with its position counted from [pos],
    and what follows it. *)
Fixpoint first_surrogate (codes : list N) (pos : nat)
  : option (nat * N * list N) :=
  match codes with
  | [] => None
  | c :: rest =>
      if is_surrogate c then Some (pos, c, rest)
      else first_surrogate rest (S pos)
  end.

(** How many surrogates [codes] starts with. *)
Fixpoint surrogate_run (codes : list N) : nat :=
  match codes with
  | [] => O
  | c :: rest => if is_surrogate c then S (surrogate_run rest) else O
  end.

Definition hex_digit (d : N) : string :=
  substring (N.to_nat d) 1 "0123456789abcdef".

(** [c] in four hexadecimal digits, as [%04x] prints it. *)
Definition hex4 (c : N) : string :=
  (hex_digit (c / 4096 mod 16) ++ hex_digit (c / 256 mod 16)
   ++ hex_digit (c / 16 mod 16) ++ hex_digit (c mod 16))%N.

(** [str(n)] for a position. *)
Definition str_nat (n : nat) : string :=
  NilZero.string_of_uint (Nat.to_uint n).

(** The [UnicodeEncodeError] for the surrogate [c] at position [start],
    followed by [more] further surrogates. *)
Definition encode_error (start : nat) (c : N) (more : nat) : exn :=
  Exn "UnicodeEncodeError"
    (match more with
     | O => "'utf-8' codec can't encode character '\u" ++ hex4 c
            ++ "' in position " ++ str_nat start
            ++ ": surrogates not allowed"
     | _ => "'utf-8' codec can't encode characters in position "
            ++ str_nat start ++ "-" ++ str_nat (start + more)
            ++ ": surrogates not allowed"
     end).

(** [print(f"<prefix>{v}...")] with an ASCII [prefix]: a [str] is written
    as it is; any other value is written through [repr], which escapes what
    cannot be encoded. *)
Definition print_formatted (prefix : string) (v : pyval) : result unit :=
  match v with
  | PStrCodes codes =>
      match first_surrogate codes (String.length prefix) with
      | None => Ok tt
      | Some (start, c, rest) =>
          Raise (encode_error start c (surrogate_run rest))
      end
  | _ => Ok tt
  end.

(** ** Text helpers for the prompts *)

Definition nl : string := String (ascii_of_nat 10) EmptyString.
Definition dq : string := String (ascii_of_nat 34) EmptyString.

(** A double-quoted word, as it appears inside the prompt templates. *)
Definition quoted (s : string) : string := dq ++ s ++ dq.

(** The lines of a triple-quoted literal, each closed by a newline. *)
Fixpoint unlines (ls : list string) : string :=
  match ls with
  | [] => ""
  | l :: rest => l ++ nl ++ unlines rest
  end.

(** [x in s] on strings. *)
Definition contains (s x : string) : Prop :=
  exists pre post, s = pre ++ x ++ post.

(** ** Shared state *)

(** [class AgentState(TypedDict)]: every declared key is present, so that
    [state.get(key, default)] and [state[key]] both read the key. *)
Record AgentState : Type := mkState {
  title : string;
  content : string;
  email : string;
  strict : bool;
  task : string;
  llm : string;
  planner_proposal : pydict;
  reviewer_feedback : pydict;
  turn_count : Z
}.

(** The one-key dict a node returns. *)
Inductive update : Type :=
| upd_planner_proposal (proposal : pydict)
| upd_reviewer_feedback (feedback : pydict)
| upd_turn_count (new_turn : Z).

(** Merging a node's return value into the state: the key it names is
    overwritten, every other key is kept. *)
Definition apply_update (s : AgentState) (u : update) : AgentState :=
  match u with
  | upd_planner_proposal p =>
      mkState (title s) (content s) (email s) (strict s) (task s) (llm s)
              p (reviewer_feedback s) (turn_count s)
  | upd_reviewer_feedback f =>
      mkState (title s) (content s) (email s) (strict s) (task s) (llm s)
              (planner_proposal s) f (turn_count s)
  | upd_turn_count n =>
      mkState (title s) (content s) (email s) (strict s) (task s) (llm s)
              (planner_proposal s) (reviewer_feedback s) n
  end.

(** The degraded records of the two [except Exception as e] handlers. *)
Definition error_proposal (e : exn) : pydict :=
  [("plan", PStr ("Error: " ++ exn_str e)); ("steps", PList [])].

Definition error_feedback (e : exn) : pydict :=
  [("feedback", PStr ("Error: " ++ exn_str e));
   ("has_issues", PBool false);
   ("suggestions", PList [])].

(** One call of [ollama.generate(model=_, prompt=_)['response']]. *)
Definition generate_fn : Type := string -> string -> result string.

Section Nodes.

(** [json.loads]: [None] when it raises. *)
Variable json_loads : string -> option pyval.
(** [json.dumps(_, indent=2)]. *)
Variable json_dumps : pyval -> string.
(** [str.strip]. *)
Variable str_strip : string -> string.

(** *** Planner *)

Definition planner_prompt (s : AgentState) : string :=
  unlines
    [ "You are a Planner Agent. Create a concise, step-by-step plan for this task:";
      "";
      "Task: " ++ task s;
      "";
      "Provide a clear, structured plan with specific steps. Be brief but thorough.";
      "Return your response as a JSON object with the following structure:";
      "{";
      "    " ++ quoted "plan" ++ ": " ++ quoted "your detailed plan here" ++ ",";
      "    " ++ quoted "steps" ++ ": [" ++ quoted "step 1" ++ ", "
             ++ quoted "step 2" ++ ", " ++ quoted "step 3" ++ "]";
      "}" ].

(** The inner [try: json.loads(output) except: {...}] of [planner_node]. *)
Definition coerce_proposal (output : string) : pyval :=
  match json_loads output with
  | Some parsed => parsed
  | None => PDict [("plan", PStr output); ("steps", PList [])]
  end.

(** The body of the outer [try] of [planner_node]. *)
Definition planner_try (generate : generate_fn) (s : AgentState)
  : result update :=
  response <- generate (llm s) (planner_prompt s) ;;
  let output := str_strip response in
  let proposal := coerce_proposal output in
  steps <- method_get proposal "steps" (PList []) ;;
  _ <- py_len steps ;;
  (* return {"planner_proposal": proposal}; a value that is no dict has
     raised at [.get] above *)
  match proposal with
  | PDict d => Ok (upd_planner_proposal d)
  | _ => Raise (no_get_error proposal)
  end.

Definition planner_node (generate : generate_fn) (s : AgentState) : update :=
  try_except (planner_try generate s)
    (fun e => upd_planner_proposal (error_proposal e)).

(** *** Reviewer *)

Definition reviewer_prompt (s : AgentState) : string :=
  let plan := planner_proposal s in
  unlines
    [ "You are a Reviewer Agent. Review this plan and provide constructive feedback:";
      "";
      "PLAN:";
      json_dumps (PDict plan);
      "";
      "Provide:";
      "1. What's good";
      "2. What could be improved";
      "3. Whether there are any issues that need fixing";
      "";
      "Return your response as a JSON object:";
      "{";
      "    " ++ quoted "feedback" ++ ": " ++ quoted "your detailed feedback here" ++ ",";
      "    " ++ quoted "has_issues" ++ ": true/false,";
      "    " ++ quoted "suggestions" ++ ": [" ++ quoted "suggestion 1" ++ ", "
             ++ quoted "suggestion 2" ++ "]";
      "}";
      "";
      "Be " ++ (if strict s then "very strict and critical"
                else "balanced and constructive") ++ "." ].

(** The inner [try: json.loads(output) except: {...}] of [reviewer_node]. *)
Definition coerce_feedback (output : string) : pyval :=
  match json_loads output with
  | Some parsed => parsed
  | None => PDict [("feedback", PStr output);
                   ("has_issues", PBool false);
                   ("suggestions", PList [])]
  end.

(** The body of the outer [try] of [reviewer_node]. *)
Definition reviewer_try (generate : generate_fn) (s : AgentState)
  : result update :=
  response <- generate (llm s) (reviewer_prompt s) ;;
  let output := str_strip response in
  let feedback := coerce_feedback output in
  has_issues <- method_get feedback "has_issues" (PBool false) ;;
  _ <- print_formatted "Reviewer found issues: " has_issues ;;
  (* return {"reviewer_feedback": feedback}; a value that is no dict has
     raised at [.get] above *)
  match feedback with
  | PDict d => Ok (upd_reviewer_feedback d)
  | _ => Raise (no_get_error feedback)
  end.

Definition reviewer_node (generate : generate_fn) (s : AgentState) : update :=
  try_except (reviewer_try generate s)
    (fun e => upd_reviewer_feedback (error_feedback e)).

End Nodes.

(** *** Supervisor and router *)

Definition supervisor_node (s : AgentState) : update :=
  let current_turn := turn_count s in
  let new_turn := current_turn + 1 in
  upd_turn_count new_turn.

(** [langgraph.graph.END]. *)
Definition END : string := "__end__".

Definition max_turns : Z := 5.

Definition router_logic (s : AgentState) : string :=
  if negb (truthy (PDict (planner_proposal s))) then "planner"
  else if negb (truthy (PDict (reviewer_feedback s))) then "reviewer"
  else
    let reviewer_feedback := reviewer_feedback s in
    let has_issues := dict_get reviewer_feedback "has_issues" (PBool false) in
    if truthy has_issues then
      let turn_count := turn_count s in
      if turn_count >=? max_turns then END
      else "planner"
    else END.

(** ** The graph of [build_graph] *)

(** The names given to [add_node]. *)
Inductive node : Type := supervisor | planner | reviewer.

Definition node_eqb (a b : node) : bool :=
  match a, b with
  | supervisor, supervisor | planner, planner | reviewer, reviewer => true
  | _, _ => false
  end.

(** The mapping passed to [add_conditional_edges]; [None] stands for [END]. *)
Definition path_map : list (string * option node) :=
  [ ("planner", Some planner); ("reviewer", Some reviewer); (END, None) ].

Fixpoint lookup {A : Type} (k : string) (m : list (string * A)) : option A :=
  match m with
  | [] => None
  | (k', a) :: rest => if String.eqb k' k then Some a else lookup k rest
  end.

(** The edge followed once node [n] has run and its update is merged into
    [s]: the conditional edge out of the supervisor, the plain edges
    [planner -> supervisor] and [reviewer -> supervisor]. *)
Definition next_node (n : node) (s : AgentState) : result (option node) :=
  match n with
  | supervisor =>
      match lookup (router_logic s) path_map with
      | Some target => Ok target
      | None => Raise (Exn "KeyError" (router_logic s))
      end
  | planner => Ok (Some supervisor)
  | reviewer => Ok (Some supervisor)
  end.

(** One streamed item: the node that ran and what it returned. *)
Definition step : Type := (node * update)%type.
Definition trace : Type := list step.

(** How an execution bounded to a number of steps ends: at [END], still
    running when the step budget is used up, or with an exception. *)
Inductive outcome : Type :=
| Finished (tr : trace) (final : AgentState)
| Unfinished (tr : trace) (s : AgentState) (next : node)
| Aborted (tr : trace) (e : exn).

Definition cons_step (st : step) (o : outcome) : outcome :=
  match o with
  | Finished tr final => Finished (st :: tr) final
  | Unfinished tr s next => Unfinished (st :: tr) s next
  | Aborted tr e => Aborted (st :: tr) e
  end.

Definition outcome_trace (o : outcome) : trace :=
  match o with
  | Finished tr _ => tr
  | Unfinished tr _ _ => tr
  | Aborted tr _ => tr
  end.

(** The generation client over a whole run: what the [i]-th call made in the
    run answers to a model and a prompt. *)
Definition client_fn : Type := nat -> generate_fn.

(** A client that answers by position only, whatever it is asked. *)
Definition scripted (responses : nat -> result string) : client_fn :=
  fun i _ _ => responses i.

Section Graph.

Variable json_loads : string -> option pyval.
Variable json_dumps : pyval -> string.
Variable str_strip : string -> string.
Variable client : client_fn.

(** Running one node; [calls] counts the generation calls made so far. *)
Definition run_node (n : node) (calls : nat) (s : AgentState)
  : update * nat :=
  match n with
  | supervisor => (supervisor_node s, calls)
  | planner => (planner_node json_loads str_strip (client calls) s, S calls)
  | reviewer =>
      (reviewer_node json_loads json_dumps str_strip (client calls) s, S calls)
  end.

(** The compiled graph run from node [n] for at most [fuel] steps. *)
Fixpoint run_from (fuel : nat) (n : node) (calls : nat) (s : AgentState)
  : outcome :=
  match fuel with
  | O => Unfinished [] s n
  | S fuel' =>
      let (u, calls') := run_node n calls s in
      let s' := apply_update s u in
      match next_node n s' with
      | Raise e => Aborted [(n, u)] e
      | Ok None => Finished [(n, u)] s'
      | Ok (Some n') => cons_step (n, u) (run_from fuel' n' calls' s')
      end
  end.

(** [graph.stream(initial_state)]: the entry point is the supervisor. *)
Definition graph_stream (fuel : nat) (initial_state : AgentState) : outcome :=
  run_from fuel supervisor 0%nat initial_state.

(** [graph.invoke(initial_state)]. *)
Definition graph_invoke (fuel : nat) (initial_state : AgentState)
  : option AgentState :=
  match graph_stream fuel initial_state with
  | Finished _ final => Some final
  | _ => None
  end.

End Graph.

(** The state [main] starts the graph from. *)
Definition initial_state (task : string) (strict : bool) : AgentState :=
  mkState "LangGraph Agent Task" task "user@example.com" strict task
          "smollm:1.7b" [] [] 0.

(** ** Reading a trace *)

(** The nodes executed, in order. *)
Definition steps_of (tr : trace) : list node := map fst tr.

(** The state once the updates of [tr] are merged into [s], in order. *)
Definition state_after (s : AgentState) (tr : trace) : AgentState :=
  fold_left (fun acc st => apply_update acc (snd st)) tr s.

(** What the router answered at each supervisor visit of [tr]. *)
Fixpoint router_decisions (s : AgentState) (tr : trace) : list string :=
  match tr with
  | [] => []
  | (n, u) :: rest =>
      let s' := apply_update s u in
      match n with
      | supervisor => router_logic s' :: router_decisions s' rest
      | _ => router_decisions s' rest
      end
  end.


(** No response of the client parses to the empty object [{}]. *)
Definition never_empty_object
  (json_loads : string -> option pyval) (str_strip : string -> string)
  (client : client_fn) : Prop :=
  forall i model prompt response,
    client i model prompt = Ok response ->
    json_loads (str_strip response) <> Some (PDict []).

(** ** The graph of the correction-loop test

    [test_correction_loop.py] has its own [AgentState], its own copies of
    [supervisor_node], [router_logic] and [build_graph], a planner that may
    ask for a revision, and a reviewer that calls no client. *)

Module CorrectionLoop.

Record AgentState : Type := mkState {
  task : string;
  llm : string;
  planner_proposal : pydict;
  reviewer_feedback : pydict;
  turn_count : Z
}.

Definition apply_update (s : AgentState) (u : update) : AgentState :=
  match u with
  | upd_planner_proposal p =>
      mkState (task s) (llm s) p (reviewer_feedback s) (turn_count s)
  | upd_reviewer_feedback f =>
      mkState (task s) (llm s) (planner_proposal s) f (turn_count s)
  | upd_turn_count n =>
      mkState (task s) (llm s) (planner_proposal s) (reviewer_feedback s) n
  end.

(** [str(n)] for an [int]. *)
Definition str_int (n : Z) : string := NilZero.string_of_int (Z.to_int n).

Section Planner.

Variable json_loads : string -> option pyval.
Variable json_dumps : pyval -> string.
Variable str_strip : string -> string.
(** What [d[:100]] raises on a dict [d] (a [TypeError] up to Python 3.11, a
    [KeyError] from 3.12 on). *)
Variable dict_slice_error : exn.

Definition revision_prompt (previous_feedback : pydict) (task : string)
  : string :=
  unlines
    [ "You are a Planner Agent. The reviewer found issues with your previous plan.";
      "";
      "Previous Feedback:";
      json_dumps (PDict previous_feedback);
      "";
      "Original Task: " ++ task;
      "";
      "Create an IMPROVED plan addressing the reviewer's concerns.";
      "Return your response as a JSON object:";
      "{";
      "    " ++ quoted "plan" ++ ": "
             ++ quoted "your improved detailed plan here" ++ ",";
      "    " ++ quoted "steps" ++ ": [" ++ quoted "step 1" ++ ", "
             ++ quoted "step 2" ++ ", " ++ quoted "step 3" ++ "]";
      "}" ].

Definition initial_prompt (task : string) : string :=
  unlines
    [ "You are a Planner Agent. Create a concise, step-by-step plan for this task:";
      "";
      "Task: " ++ task;
      "";
      "Provide a clear, structured plan with specific steps. Be brief but thorough.";
      "Return your response as a JSON object:";
      "{";
      "    " ++ quoted "plan" ++ ": " ++ quoted "your detailed plan here" ++ ",";
      "    " ++ quoted "steps" ++ ": [" ++ quoted "step 1" ++ ", "
             ++ quoted "step 2" ++ ", " ++ quoted "step 3" ++ "]";
      "}" ].

(** The prompt [planner_node] builds before it calls the client. *)
Definition planner_prompt (s : AgentState) : string :=
  let task := task s in
  let turn_count := turn_count s in
  let previous_feedback := reviewer_feedback s in
  if truthy (PDict previous_feedback) && (turn_count >? 1)
  then revision_prompt previous_feedback task
  else initial_prompt task.

(** [v[:100]]. *)
Definition slice_100 (v : pyval) : result pyval :=
  match v with
  | PStr s => Ok (PStr (substring 0 100 s))
  | PStrCodes codes => Ok (PStrCodes (firstn 100 codes))
  | PList l => Ok (PList (firstn 100 l))
  | PDict _ => Raise dict_slice_error
  | _ => Raise (Exn "TypeError"
                  ("'" ++ type_name v ++ "' object is not subscriptable"))
  end.

(** The body of the outer [try] of [planner_node]. *)
Definition planner_try (generate : generate_fn) (s : AgentState)
  : result update :=
  response <- generate (llm s) (planner_prompt s) ;;
  let output := str_strip response in
  let proposal := coerce_proposal json_loads output in
  steps <- method_get proposal "steps" (PList []) ;;
  _ <- py_len steps ;;
  plan <- method_get proposal "plan" (PStr "") ;;
  preview <- slice_100 plan ;;
  _ <- print_formatted "Plan preview: " preview ;;
  match proposal with
  | PDict d => Ok (upd_planner_proposal d)
  | _ => Raise (no_get_error proposal)
  end.

Definition planner_node (generate : generate_fn) (s : AgentState) : update :=
  try_except (planner_try generate s)
    (fun e => upd_planner_proposal (error_proposal e)).

End Planner.

Definition reviewer_node_always_issues (s : AgentState) : update :=
  let turn_count := turn_count s in
  if turn_count <? 3 then
    upd_reviewer_feedback
      [("feedback",
        PStr ("[FORCED ISSUE #" ++ str_int turn_count
              ++ "] The plan needs more detail in step "
              ++ str_int (turn_count + 1)
              ++ ". Please elaborate on the implementation specifics."));
       ("has_issues", PBool true);
       ("suggestions",
        PList [PStr ("Add more detail to step " ++ str_int (turn_count + 1));
               PStr "Include error handling considerations";
               PStr "Specify expected outcomes"])]
  else
    upd_reviewer_feedback
      [("feedback",
        PStr "The plan looks good now after multiple revisions. All concerns have been addressed.");
       ("has_issues", PBool false);
       ("suggestions", PList [])].

Definition supervisor_node (s : AgentState) : update :=
  let current_turn := turn_count s in
  let new_turn := current_turn + 1 in
  upd_turn_count new_turn.

Definition router_logic (s : AgentState) : string :=
  if negb (truthy (PDict (planner_proposal s))) then "planner"
  else if negb (truthy (PDict (reviewer_feedback s))) then "reviewer"
  else
    let reviewer_feedback := reviewer_feedback s in
    let has_issues := dict_get reviewer_feedback "has_issues" (PBool false) in
    if truthy has_issues then
      let turn_count := turn_count s in
      let max_turns := 5 in
      if turn_count >=? max_turns then END
      else "planner"
    else END.

Definition next_node (n : node) (s : AgentState) : result (option node) :=
  match n with
  | supervisor =>
      match lookup (router_logic s) path_map with
      | Some target => Ok target
      | None => Raise (Exn "KeyError" (router_logic s))
      end
  | planner => Ok (Some supervisor)
  | reviewer => Ok (Some supervisor)
  end.

Inductive outcome : Type :=
| Finished (tr : trace) (final : AgentState)
| Unfinished (tr : trace) (s : AgentState) (next : node)
| Aborted (tr : trace) (e : exn).

Definition cons_step (st : step) (o : outcome) : outcome :=
  match o with
  | Finished tr final => Finished (st :: tr) final
  | Unfinished tr s next => Unfinished (st :: tr) s next
  | Aborted tr e => Aborted (st :: tr) e
  end.

Section Graph.

Variable json_loads : string -> option pyval.
Variable json_dumps : pyval -> string.
Variable str_strip : string -> string.
Variable dict_slice_error : exn.
Variable client : client_fn.

(** The reviewer of this graph is [reviewer_node_always_issues]; it makes no
    generation call. *)
Definition run_node (n : node) (calls : nat) (s : AgentState)
  : update * nat :=
  match n with
  | supervisor => (supervisor_node s, calls)
  | planner =>
      (planner_node json_loads json_dumps str_strip dict_slice_error
                    (client calls) s, S calls)
  | reviewer => (reviewer_node_always_issues s, calls)
  end.

Fixpoint run_from (fuel : nat) (n : node) (calls : nat) (s : AgentState)
  : outcome :=
  match fuel with
  | O => Unfinished [] s n
  | S fuel' =>
      let (u, calls') := run_node n calls s in
      let s' := apply_update s u in
      match next_node n s' with
      | Raise e => Aborted [(n, u)] e
      | Ok None => Finished [(n, u)] s'
      | Ok (Some n') => cons_step (n, u) (run_from fuel' n' calls' s')
      end
  end.

Definition graph_stream (fuel : nat) (initial_state : AgentState) : outcome :=
  run_from fuel supervisor 0%nat initial_state.

End Graph.

(** The state [main] of the test starts the graph from. *)
Definition initial_state (task : string) : AgentState :=
  mkState task "smollm:1.7b" [] [] 0.

(** A state of the test in the middle of a run. *)
Definition sample_state (turn : Z) : AgentState :=
  mkState "X" "smollm:1.7b" [("plan", PStr "p"); ("steps", PList [])]
          [("has_issues", PBool true)] turn.

End CorrectionLoop.

(** The state of the test seen as a state of [langgraph_agents.py]; the keys
    the test does not have are filled with blanks. *)
Definition as_main (s : CorrectionLoop.AgentState) : AgentState :=
  mkState "" "" "" false (CorrectionLoop.task s) (CorrectionLoop.llm s)
          (CorrectionLoop.planner_proposal s)
          (CorrectionLoop.reviewer_feedback s) (CorrectionLoop.turn_count s).

(** ** Concrete externals for the examples

    A finite table of texts with the value [json.loads] returns on each of
    them; every other text is taken to be rejected.  None of the texts has
    surrounding whitespace, so [str.strip] leaves them as they are. *)

(** [{"plan": "p", "steps": []}] *)
Definition plan_text : string :=
  "{" ++ quoted "plan" ++ ": " ++ quoted "p" ++ ", " ++ quoted "steps" ++ ": []}".
(** [{"steps": []}] *)
Definition steps_only_text : string := "{" ++ quoted "steps" ++ ": []}".
(** [{"has_issues": true}] *)
Definition issues_text : string := "{" ++ quoted "has_issues" ++ ": true}".
(** [{"has_issues": false}] *)
Definition approve_text : string := "{" ++ quoted "has_issues" ++ ": false}".
(** [{"feedback": "ok"}] *)
Definition feedback_only_text : string :=
  "{" ++ quoted "feedback" ++ ": " ++ quoted "ok" ++ "}".

Definition sample_table : list (string * pyval) :=
  [ ("{}", PDict []);
    (plan_text, PDict [("plan", PStr "p"); ("steps", PList [])]);
    (steps_only_text, PDict [("steps", PList [])]);
    (issues_text, PDict [("has_issues", PBool true)]);
    (approve_text, PDict [("has_issues", PBool false)]);
    (feedback_only_text, PDict [("feedback", PStr "ok")]);
    ("[1]", PList [PInt 1]);
    ("7", PInt 7) ].

Definition sample_loads (text : string) : option pyval :=
  lookup text sample_table.



Definition sample_strip (text : string) : string := text.

(** Stands for [json.dumps]; only the empty dict is rendered as Python
    renders it. *)
Definition sample_dumps (v : pyval) : string :=
  match v with
  | PDict [] => "{}"
  | _ => "{...}"
  end.

(** A state in the middle of a run: a plan and a review that reports issues. *)
Definition sample_state (turn : Z) : AgentState :=
  mkState "LangGraph Agent Task" "X" "user@example.com" false "X" "smollm:1.7b"
          [("plan", PStr "p"); ("steps", PList [])]
          [("has_issues", PBool true)] turn.

(** Clients used in the examples. *)
Definition always (text : string) : client_fn :=
  scripted (fun _ => Ok text).

(** First a plan, then a review that reports issues, then plans again. *)
Definition plan_issues_plan : client_fn :=
  scripted (fun i => match i with
                     | 1%nat => Ok issues_text
                     | _ => Ok plan_text
                     end).

(** First a plan, then an approving review. *)
Definition plan_then_approve : client_fn :=
  scripted (fun i => match i with
                     | O => Ok plan_text
                     | _ => Ok approve_text
                     end).

(** First the empty object, then a plan, then an approving review. *)
Definition empty_plan_approve : client_fn :=
  scripted (fun i => match i with
                     | O => Ok "{}"
                     | 1%nat => Ok plan_text
                     | _ => Ok approve_text
                     end).

Definition failing (msg : string) : client_fn :=
  scripted (fun _ => Raise (Exn "ConnectionError" msg)).

(** A client that fails with the prompt it was sent as its message, which
    makes the prompt visible in the record the node returns. *)
Definition echo_prompt : generate_fn :=
  fun _ prompt => Raise (Exn "Echo" prompt).

(** The run of [plan_then_approve] from the initial state of [main]. *)
Definition approve_trace : trace :=
  [(supervisor, upd_turn_count 1);
   (planner, upd_planner_proposal [("plan", PStr "p"); ("steps", PList [])]);
   (supervisor, upd_turn_count 2);
   (reviewer, upd_reviewer_feedback [("has_issues", PBool false)]);
   (supervisor, upd_turn_count 3)].

Definition approve_final : AgentState :=
  mkState "LangGraph Agent Task" "X" "user@example.com" false "X" "smollm:1.7b"
          [("plan", PStr "p"); ("steps", PList [])]
          [("has_issues", PBool false)] 3.

(** The run of [plan_issues_plan] from the initial state of [main]. *)
Definition loop_trace : trace :=
  [(supervisor, upd_turn_count 1);
   (planner, upd_planner_proposal [("plan", PStr "p"); ("steps", PList [])]);
   (supervisor, upd_turn_count 2);
   (reviewer, upd_reviewer_feedback [("has_issues", PBool true)]);
   (supervisor, upd_turn_count 3);
   (planner, upd_planner_proposal [("plan", PStr "p"); ("steps", PList [])]);
   (supervisor, upd_turn_count 4);
   (planner, upd_planner_proposal [("plan", PStr "p"); ("steps", PList [])]);
   (supervisor, upd_turn_count 5)].

(** [s] with its [strict] key set to [b]. *)
Definition set_strict (b : bool) (s : AgentState) : AgentState :=
  mkState (title s) (content s) (email s) b (task s) (llm s)
          (planner_proposal s) (reviewer_feedback s) (turn_count s).

(** The state an unfinished or finished outcome carries, transformed. *)
Definition map_outcome (f : AgentState -> AgentState) (o : outcome) : outcome :=
  match o with
  | Finished tr final => Finished tr (f final)
  | Unfinished tr s next => Unfinished tr (f s) next
  | Aborted tr e => Aborted tr e
  end.

(** How often node [n] ran in [tr]. *)
Definition executions (n : node) (tr : trace) : nat :=
  List.length (filter (fun st => node_eqb (fst st) n) tr).

(** Along a trace the supervisor writes [turn_count + 1] and the other nodes
    do not write [turn_count]. *)
Fixpoint turn_discipline (s : AgentState) (tr : trace) : Prop :=
  match tr with
  | [] => True
  | (n, u) :: rest =>
      match n with
      | supervisor => u = upd_turn_count (turn_count s + 1)
      | _ => turn_count (apply_update s u) = turn_count s
      end /\ turn_discipline (apply_update s u) rest
  end.

(** ** The entry points

    [main] of both files reads its input, builds the initial state and
    executes the compiled graph twice: once with [graph.stream], printing
    every step, and once more with [graph.invoke] for the final state it
    prints.  The second execution makes its own generation calls. *)

(** The generation calls made along a trace of the graph of
    [langgraph_agents.py]: one per planner step and one per reviewer step. *)
Definition agent_steps (tr : trace) : nat :=
  (executions planner tr + executions reviewer tr)%nat.

(** The client as seen after [k] calls have been made. *)
Definition shift_client (k : nat) (client : client_fn) : client_fn :=
  fun i => client (k + i)%nat.

(** A node returns the key that is its own. *)
Definition step_shape (st : step) : Prop :=
  match st with
  | (supervisor, upd_turn_count _) => True
  | (planner, upd_planner_proposal _) => True
  | (reviewer, upd_reviewer_feedback _) => True
  | _ => False
  end.

(** What a call of [main] of [langgraph_agents.py] comes to. *)
Inductive main_result : Type :=
| NoTask
| StreamStopped (o : outcome)
| InvokeStopped (streamed : trace) (o : outcome)
| Completed (streamed : trace) (final_state : AgentState).

(** What a call of [main] of [test_correction_loop.py] comes to. *)
Inductive test_main_result : Type :=
| TestStreamStopped (o : CorrectionLoop.outcome)
| TestInvokeStopped (streamed : trace) (o : CorrectionLoop.outcome)
| TestCompleted (streamed : trace) (final_state : CorrectionLoop.AgentState).

Definition default_task : string :=
  "Create a simple Python script to read a CSV file and calculate averages".

Section Main.

Variable json_loads : string -> option pyval.
Variable json_dumps : pyval -> string.
Variable str_strip : string -> string.
(** [str.lower]. *)
Variable str_lower : string -> string.
Variable dict_slice_error : exn.
Variable client : client_fn.
(** The number of steps one execution of the graph may take. *)
Variable fuel : nat.

(** [main] of [langgraph_agents.py]; [task_input] and [strict_input] are
    what the two calls of [input] return. *)
Definition main (task_input strict_input : string) : main_result :=
  let task := str_strip task_input in
  if negb (truthy (PStr task)) then NoTask
  else
    let strict_input := str_lower (str_strip strict_input) in
    let strict := String.eqb strict_input "y" in
    let initial_state := initial_state task strict in
    match graph_stream json_loads json_dumps str_strip client fuel
                       initial_state with
    | Finished streamed _ =>
        match graph_stream json_loads json_dumps str_strip
                (shift_client (agent_steps streamed) client) fuel
                initial_state with
        | Finished _ final_state => Completed streamed final_state
        | o => InvokeStopped streamed o
        end
    | o => StreamStopped o
    end.

(** [main] of [test_correction_loop.py]; only the planner of its graph
    calls the client. *)
Definition test_main (task_input : string) : test_main_result :=
  let task := str_strip task_input in
  let task := if negb (truthy (PStr task)) then default_task else task in
  let initial_state := CorrectionLoop.initial_state task in
  match CorrectionLoop.graph_stream json_loads json_dumps str_strip
          dict_slice_error client fuel initial_state with
  | CorrectionLoop.Finished streamed _ =>
      match CorrectionLoop.graph_stream json_loads json_dumps str_strip
              dict_slice_error
              (shift_client (executions planner streamed) client) fuel
              initial_state with
      | CorrectionLoop.Finished _ final_state =>
          TestCompleted streamed final_state
      | o => TestInvokeStopped streamed o
      end
  | o => TestStreamStopped o
  end.

End Main.

(** The client answers a model and a prompt the same way whenever it is
    called. *)
Definition stationary (client : client_fn) : Prop :=
  forall i model prompt, client i model prompt = client 0%nat model prompt.

(** * Properties *)

(** ** Router *)

Lemma truthy_dict_false (d : pydict) : truthy (PDict d) = false <-> d = [].
Proof. destruct d; simpl; split; congruence. Qed.

Lemma truthy_dict_true (d : pydict) : truthy (PDict d) = true <-> d <> [].
Proof. destruct d; simpl; split; congruence. Qed.

Lemma router_logic_cases (s : AgentState) :
  router_logic s = "planner" \/ router_logic s = "reviewer"
  \/ router_logic s = END.
Proof.
  unfold router_logic.
  destruct (truthy (PDict (planner_proposal s))); cbn [negb]; auto.
  destruct (truthy (PDict (reviewer_feedback s))); cbn [negb]; auto.
  destruct (truthy (dict_get _ _ _)); auto.
  destruct (turn_count s >=? max_turns); auto.
Qed.

Lemma router_no_proposal (s : AgentState) :
  planner_proposal s = [] -> router_logic s = "planner".
Proof. intros H. unfold router_logic. now rewrite H. Qed.

Lemma router_no_feedback (s : AgentState) :
  planner_proposal s <> [] -> reviewer_feedback s = [] ->
  router_logic s = "reviewer".
Proof.
  intros Hp Hf. unfold router_logic.
  apply truthy_dict_true in Hp. now rewrite Hp, Hf.
Qed.

Lemma router_no_issues (s : AgentState) :
  planner_proposal s <> [] -> reviewer_feedback s <> [] ->
  truthy (dict_get (reviewer_feedback s) "has_issues" (PBool false)) = false ->
  router_logic s = END.
Proof.
  intros Hp Hf Hi. unfold router_logic.
  apply truthy_dict_true in Hp. apply truthy_dict_true in Hf.
  now rewrite Hp, Hf, Hi.
Qed.

Lemma router_issues (s : AgentState) :
  planner_proposal s <> [] -> reviewer_feedback s <> [] ->
  truthy (dict_get (reviewer_feedback s) "has_issues" (PBool false)) = true ->
  router_logic s = if turn_count s >=? max_turns then END else "planner".
Proof.
  intros Hp Hf Hi. unfold router_logic.
  apply truthy_dict_true in Hp. apply truthy_dict_true in Hf.
  now rewrite Hp, Hf, Hi.
Qed.

(** C1: the router is total with values among "planner", "reviewer" and END
    (so the conditional edge always finds its target), and it decides in this
    order: no proposal gives the planner; else no feedback gives the
    reviewer; else no issues gives END; else END from turn 5 on and the
    planner before.  The first two answers hold whatever [turn_count] is.
    The copy of the router in the correction-loop test is the same
    function. *)
Theorem router_logic_strict_order (s : AgentState) :
  (router_logic s = "planner" \/ router_logic s = "reviewer"
   \/ router_logic s = END)
  /\ (exists target, next_node supervisor s = Ok target)
  /\ (planner_proposal s = [] ->
      router_logic s = "planner"
      /\ forall turn, router_logic (apply_update s (upd_turn_count turn))
                      = "planner")
  /\ (planner_proposal s <> [] -> reviewer_feedback s = [] ->
      router_logic s = "reviewer"
      /\ forall turn, router_logic (apply_update s (upd_turn_count turn))
                      = "reviewer")
  /\ (planner_proposal s <> [] -> reviewer_feedback s <> [] ->
      truthy (dict_get (reviewer_feedback s) "has_issues" (PBool false)) = false ->
      router_logic s = END)
  /\ (planner_proposal s <> [] -> reviewer_feedback s <> [] ->
      truthy (dict_get (reviewer_feedback s) "has_issues" (PBool false)) = true ->
      (turn_count s >= 5 -> router_logic s = END)
      /\ (turn_count s < 5 -> router_logic s = "planner"))
  /\ (forall t, CorrectionLoop.router_logic t = router_logic (as_main t)).
Proof.
  split; [apply router_logic_cases|].
  split.
  { unfold next_node.
    destruct (router_logic_cases s) as [H|[H|H]]; rewrite H; simpl; eauto. }
  split.
  { intros H; split; [now apply router_no_proposal|].
    intros turn. now apply router_no_proposal. }
  split.
  { intros Hp Hf; split; [now apply router_no_feedback|].
    intros turn. now apply router_no_feedback. }
  split; [apply router_no_issues|].
  split; [|reflexivity].
  intros Hp Hf Hi. rewrite (router_issues s Hp Hf Hi). unfold max_turns.
  split; intros Ht.
  - destruct (Z.geb_spec (turn_count s) 5); [reflexivity|lia].
  - destruct (Z.geb_spec (turn_count s) 5); [lia|reflexivity].
Qed.

Lemma router_logic_strict_order_witness :
  router_logic (sample_state 5) = END
  /\ router_logic (sample_state 4) = "planner"
  /\ router_logic (initial_state "X" false) = "planner".
Proof.
  split; [|split].
  - destruct (router_logic_strict_order (sample_state 5))
      as (_ & _ & _ & _ & _ & H & _).
    apply H; simpl; try discriminate; try reflexivity; lia.
  - destruct (router_logic_strict_order (sample_state 4))
      as (_ & _ & _ & _ & _ & H & _).
    apply H; simpl; try discriminate; try reflexivity; lia.
  - destruct (router_logic_strict_order (initial_state "X" false))
      as (_ & _ & H & _).
    apply H; reflexivity.
Defined.

(** ** Agent steps *)

Section NodeFacts.

Variable json_loads : string -> option pyval.
Variable json_dumps : pyval -> string.
Variable str_strip : string -> string.

Lemma planner_client_error generate s e :
  generate (llm s) (planner_prompt s) = Raise e ->
  planner_node json_loads str_strip generate s = upd_planner_proposal (error_proposal e).
Proof.
  intros H. unfold planner_node, planner_try. now rewrite H.
Qed.

Lemma reviewer_client_error generate s e :
  generate (llm s) (reviewer_prompt json_dumps s) = Raise e ->
  reviewer_node json_loads json_dumps str_strip generate s = upd_reviewer_feedback (error_feedback e).
Proof.
  intros H. unfold reviewer_node, reviewer_try. now rewrite H.
Qed.



Lemma planner_parsed_dict generate s response d n :
  generate (llm s) (planner_prompt s) = Ok response ->
  json_loads (str_strip response) = Some (PDict d) ->
  py_len (dict_get d "steps" (PList [])) = Ok n ->
  planner_node json_loads str_strip generate s = upd_planner_proposal d.
Proof.
  intros Hg Hl Hn. unfold planner_node, planner_try, coerce_proposal.
  rewrite Hg. cbn [bind]. rewrite Hl. cbn [method_get bind].
  now rewrite Hn.
Qed.






(** Whatever the client and the parser do, the planner returns a
    [planner_proposal] update and the reviewer a [reviewer_feedback] one. *)
Lemma planner_shape generate s :
  exists d, planner_node json_loads str_strip generate s = upd_planner_proposal d.
Proof.
  unfold planner_node, planner_try.
  destruct (generate (llm s) (planner_prompt s)) as [response|e];
    cbn [bind try_except]; [|eauto].
  destruct (coerce_proposal json_loads (str_strip response));
    cbn [method_get bind try_except]; eauto.
  destruct (py_len _); cbn [bind try_except]; eauto.
Qed.

Lemma reviewer_shape generate s :
  exists d, reviewer_node json_loads json_dumps str_strip generate s = upd_reviewer_feedback d.
Proof.
  unfold reviewer_node, reviewer_try.
  destruct (generate (llm s) (reviewer_prompt json_dumps s)) as [response|e];
    cbn [bind try_except]; [|eauto].
  destruct (coerce_feedback json_loads (str_strip response));
    cbn [method_get bind try_except]; eauto.
  destruct (print_formatted _ _); cbn [bind try_except]; eauto.
Qed.



End NodeFacts.




(** C5: when the generation client raises, the planner returns the proposal
    whose [plan] is "Error: " followed by the failure text, with empty
    [steps]; the reviewer returns the feedback with that text in [feedback],
    [has_issues] False and empty [suggestions]; and the graph goes on to the
    supervisor with that record merged, as after any other agent step. *)
Theorem client_failure_becomes_record
  (json_loads : string -> option pyval) (json_dumps : pyval -> string)
  (str_strip : string -> string) (client : client_fn)
  (calls : nat) (s : AgentState) (e : exn) :
  (client calls (llm s) (planner_prompt s) = Raise e ->
   planner_node json_loads str_strip (client calls) s
   = upd_planner_proposal
       [("plan", PStr ("Error: " ++ exn_str e)); ("steps", PList [])]
   /\ forall fuel,
       run_from json_loads json_dumps str_strip client (S fuel) planner calls s
       = cons_step (planner, upd_planner_proposal (error_proposal e))
           (run_from json_loads json_dumps str_strip client fuel supervisor
              (S calls)
              (apply_update s (upd_planner_proposal (error_proposal e)))))
  /\ (client calls (llm s) (reviewer_prompt json_dumps s) = Raise e ->
      reviewer_node json_loads json_dumps str_strip (client calls) s
      = upd_reviewer_feedback
          [("feedback", PStr ("Error: " ++ exn_str e));
           ("has_issues", PBool false);
           ("suggestions", PList [])]
      /\ forall fuel,
          run_from json_loads json_dumps str_strip client (S fuel) reviewer
                   calls s
          = cons_step (reviewer, upd_reviewer_feedback (error_feedback e))
              (run_from json_loads json_dumps str_strip client fuel supervisor
                 (S calls)
                 (apply_update s (upd_reviewer_feedback (error_feedback e))))).
Proof.
  split; intros H.
  - pose proof (planner_client_error json_loads str_strip _ _ _ H) as Hn.
    split; [exact Hn|]. intros fuel.
    cbn [run_from run_node]. now rewrite Hn.
  - pose proof (reviewer_client_error json_loads json_dumps str_strip _ _ _ H)
      as Hn.
    split; [exact Hn|]. intros fuel.
    cbn [run_from run_node]. now rewrite Hn.
Qed.

Lemma client_failure_becomes_record_witness :
  planner_node sample_loads sample_strip (failing "connection refused" 0%nat)
               (initial_state "X" false)
  = upd_planner_proposal
      [("plan", PStr "Error: connection refused"); ("steps", PList [])].
Proof.
  apply (client_failure_becomes_record
           sample_loads sample_dumps sample_strip
           (failing "connection refused") 0%nat (initial_state "X" false)
           (Exn "ConnectionError" "connection refused")).
  reflexivity.
Defined.

(** C10: the router takes an empty dict for "no proposal yet".  The initial
    state of [main] is routed to the planner, and so is every state in which
    the planner has just stored a response that parsed to [{}]: the planner
    has run, the stored proposal is empty, and the decision after the next
    supervisor visit is the planner again, not the reviewer, whatever the
    turn count and the feedback are.  Feedback is judged the same way: with
    a proposal and an empty feedback the answer is the reviewer. *)
Theorem router_takes_empty_proposal_as_absent
  (json_loads : string -> option pyval) (str_strip : string -> string)
  (generate : generate_fn) (s : AgentState) (response : string) :
  generate (llm s) (planner_prompt s) = Ok response ->
  json_loads (str_strip response) = Some (PDict []) ->
  planner_node json_loads str_strip generate s = upd_planner_proposal []
  /\ (let s' := apply_update s (planner_node json_loads str_strip generate s) in
      router_logic s' = "planner"
      /\ router_logic (apply_update s' (supervisor_node s')) = "planner"
      /\ next_node supervisor (apply_update s' (supervisor_node s'))
         = Ok (Some planner))
  /\ (forall task strict, router_logic (initial_state task strict) = "planner")
  /\ (forall s0, planner_proposal s0 <> [] -> reviewer_feedback s0 = [] ->
                 router_logic s0 = "reviewer").
Proof.
  intros Hg Hl.
  assert (Hn : planner_node json_loads str_strip generate s
               = upd_planner_proposal []).
  { eapply planner_parsed_dict; eauto. reflexivity. }
  split; [exact Hn|].
  split; [|split; [reflexivity|apply router_no_feedback]].
  rewrite Hn. cbn zeta.
  assert (Hr : forall turn,
             router_logic
               (apply_update (apply_update s (upd_planner_proposal []))
                             (upd_turn_count turn)) = "planner")
    by (intros; now apply router_no_proposal).
  split; [now apply router_no_proposal|].
  split; [apply Hr|].
  unfold next_node, supervisor_node. now rewrite Hr.
Qed.

Lemma router_takes_empty_proposal_as_absent_witness :
  planner_node sample_loads sample_strip (always "{}" 0%nat) (sample_state 2)
  = upd_planner_proposal [].
Proof.
  apply (router_takes_empty_proposal_as_absent
           sample_loads sample_strip (always "{}" 0%nat) (sample_state 2) "{}");
    reflexivity.
Defined.

(** ** Prompts *)

Lemma append_assoc (a b c : string) : (a ++ b) ++ c = a ++ (b ++ c).
Proof. induction a; simpl; congruence. Qed.

Lemma append_empty_r (a : string) : a ++ "" = a.
Proof. induction a; simpl; congruence. Qed.

Lemma contains_refl (x : string) : contains x x.
Proof. exists "", "". simpl. now rewrite append_empty_r. Qed.

Lemma contains_after (pre s x : string) :
  contains s x -> contains (pre ++ s) x.
Proof.
  intros (a & b & ->). exists (pre ++ a), b. now rewrite append_assoc.
Qed.

Lemma contains_before (s post x : string) :
  contains s x -> contains (s ++ post) x.
Proof.
  intros (a & b & ->). exists a, (b ++ post). now rewrite !append_assoc.
Qed.

(** A text found in one line of a template is found in the template. *)
Lemma contains_unlines (ls : list string) (l x : string) :
  In l ls -> contains l x -> contains (unlines ls) x.
Proof.
  induction ls as [|l0 ls IH]; [intros []|].
  cbn [unlines]. intros [->|Hin] Hc.
  - now apply contains_before.
  - apply contains_after, contains_after. now apply IH.
Qed.

Lemma unlines_app (l1 l2 : list string) :
  unlines (l1 ++ l2) = unlines l1 ++ unlines l2.
Proof.
  induction l1 as [|l l1 IH]; simpl; [reflexivity|].
  now rewrite IH, !append_assoc.
Qed.

(** C7 (as the code has it): the planner of [langgraph_agents.py] builds its
    prompt from the task alone; the prompt is the same whatever the feedback
    and the turn count are.  The planner of the correction-loop test asks for
    a revision, quoting the feedback and the task, exactly when the feedback
    is non-empty and the turn count is above 1; otherwise, and so whenever
    the feedback is empty, it asks for a first draft of the task. *)
Theorem planner_prompt_revision_rule
  (json_dumps : pyval -> string)
  (s : AgentState) (t : CorrectionLoop.AgentState) :
  contains (planner_prompt s) (task s)
  /\ (forall feedback turn,
        planner_prompt
          (apply_update (apply_update s (upd_reviewer_feedback feedback))
                        (upd_turn_count turn))
        = planner_prompt s)
  /\ (CorrectionLoop.reviewer_feedback t <> [] ->
      CorrectionLoop.turn_count t > 1 ->
      CorrectionLoop.planner_prompt json_dumps t
      = CorrectionLoop.revision_prompt json_dumps
          (CorrectionLoop.reviewer_feedback t) (CorrectionLoop.task t)
      /\ contains (CorrectionLoop.planner_prompt json_dumps t)
                  (json_dumps (PDict (CorrectionLoop.reviewer_feedback t)))
      /\ contains (CorrectionLoop.planner_prompt json_dumps t)
                  (CorrectionLoop.task t)
      /\ contains (CorrectionLoop.planner_prompt json_dumps t)
                  "Create an IMPROVED plan")
  /\ (CorrectionLoop.reviewer_feedback t = []
      \/ CorrectionLoop.turn_count t <= 1 ->
      CorrectionLoop.planner_prompt json_dumps t
      = CorrectionLoop.initial_prompt (CorrectionLoop.task t)
      /\ contains (CorrectionLoop.planner_prompt json_dumps t)
                  (CorrectionLoop.task t)).
Proof.
  split.
  { unfold planner_prompt.
    apply contains_unlines with (l := "Task: " ++ task s).
    - cbn [In]. tauto.
    - apply contains_after, contains_refl. }
  split; [reflexivity|].
  split.
  - intros Hf Ht. unfold CorrectionLoop.planner_prompt.
    apply truthy_dict_true in Hf. rewrite Hf.
    destruct (Z.gtb_spec (CorrectionLoop.turn_count t) 1); [|lia].
    cbn [andb].
    split; [reflexivity|].
    unfold CorrectionLoop.revision_prompt.
    repeat split.
    + apply contains_unlines
        with (l := json_dumps (PDict (CorrectionLoop.reviewer_feedback t))).
      * cbn [In]. tauto.
      * apply contains_refl.
    + apply contains_unlines
        with (l := "Original Task: " ++ CorrectionLoop.task t).
      * cbn [In]. tauto.
      * apply contains_after, contains_refl.
    + apply contains_unlines
        with (l := "Create an IMPROVED plan addressing the reviewer's concerns.").
      * cbn [In]. tauto.
      * now exists "", " addressing the reviewer's concerns.".
  - intros H. unfold CorrectionLoop.planner_prompt.
    assert (Hc : truthy (PDict (CorrectionLoop.reviewer_feedback t))
                 && (CorrectionLoop.turn_count t >? 1) = false).
    { destruct H as [H|H].
      - now rewrite H.
      - destruct (Z.gtb_spec (CorrectionLoop.turn_count t) 1);
          [lia|apply andb_false_r]. }
    rewrite Hc. split; [reflexivity|].
    unfold CorrectionLoop.initial_prompt.
    apply contains_unlines with (l := "Task: " ++ CorrectionLoop.task t).
    + cbn [In]. tauto.
    + apply contains_after, contains_refl.
Qed.

Lemma planner_prompt_revision_rule_witness :
  CorrectionLoop.planner_prompt sample_dumps (CorrectionLoop.sample_state 3)
  = CorrectionLoop.revision_prompt sample_dumps [("has_issues", PBool true)] "X"
  /\ CorrectionLoop.planner_prompt sample_dumps (CorrectionLoop.initial_state "X")
     = CorrectionLoop.initial_prompt "X".
Proof.
  split.
  - destruct (planner_prompt_revision_rule sample_dumps
                (sample_state 3) (CorrectionLoop.sample_state 3))
      as (_ & _ & H & _).
    apply H; simpl; [discriminate|lia].
  - destruct (planner_prompt_revision_rule sample_dumps
                (sample_state 3) (CorrectionLoop.initial_state "X"))
      as (_ & _ & _ & H).
    apply H. left. reflexivity.
Defined.

(** C7 as stated fails: with a review present, the planner of
    [langgraph_agents.py] builds, and sends to the client, the very prompt it
    builds when there is none; and the planner of the test still asks for a
    first draft at turn 1. *)
Lemma planner_prompt_same_with_feedback :
  reviewer_feedback (sample_state 3) = [("has_issues", PBool true)]
  /\ reviewer_feedback (initial_state "X" false) = []
  /\ planner_prompt (sample_state 3) = planner_prompt (initial_state "X" false)
  /\ planner_node sample_loads sample_strip echo_prompt (sample_state 3)
     = upd_planner_proposal
         [("plan", PStr ("Error: " ++ planner_prompt (initial_state "X" false)));
          ("steps", PList [])]
  /\ CorrectionLoop.reviewer_feedback (CorrectionLoop.sample_state 1)
     = [("has_issues", PBool true)]
  /\ CorrectionLoop.planner_prompt sample_dumps (CorrectionLoop.sample_state 1)
     = CorrectionLoop.initial_prompt "X".
Proof. repeat split; reflexivity. Qed.

(** ** Runs *)

Lemma outcome_trace_cons (st : step) (o : outcome) :
  outcome_trace (cons_step st o) = st :: outcome_trace o.
Proof. now destruct o. Qed.

Lemma state_after_app (s : AgentState) (tr1 tr2 : trace) :
  state_after s (tr1 ++ tr2)%list = state_after (state_after s tr1) tr2.
Proof. apply fold_left_app. Qed.

Lemma turn_discipline_app (tr1 tr2 : trace) : forall s,
  turn_discipline s (tr1 ++ tr2)%list ->
  turn_discipline s tr1 /\ turn_discipline (state_after s tr1) tr2.
Proof.
  induction tr1 as [|[n u] tr1 IH]; intros s; simpl; [tauto|].
  intros [Hu H]. apply IH in H. tauto.
Qed.

Lemma turn_discipline_count (tr : trace) : forall s,
  turn_discipline s tr ->
  turn_count (state_after s tr)
  = turn_count s + Z.of_nat (executions supervisor tr).
Proof.
  induction tr as [|[n u] tr IH]; intros s; simpl; [lia|].
  intros [Hu H]. unfold state_after, executions in *. simpl.
  rewrite (IH _ H).
  destruct n; simpl; [subst u; simpl; lia|rewrite Hu; lia|rewrite Hu; lia].
Qed.

Lemma turn_discipline_monotone (tr : trace) (s : AgentState) :
  turn_discipline s tr -> turn_count s <= turn_count (state_after s tr).
Proof. intros H. rewrite (turn_discipline_count tr s H). lia. Qed.

Section RunFacts.

Variable json_loads : string -> option pyval.
Variable json_dumps : pyval -> string.
Variable str_strip : string -> string.
Variable client : client_fn.

Lemma run_from_turn_discipline (fuel : nat) : forall n calls s,
  turn_discipline s
    (outcome_trace
       (run_from json_loads json_dumps str_strip client fuel n calls s)).
Proof.
  induction fuel as [|fuel IH]; intros n calls s; [exact I|].
  cbn [run_from].
  assert (Hu : match n with
               | supervisor =>
                   fst (run_node json_loads json_dumps str_strip client
                          n calls s)
                   = upd_turn_count (turn_count s + 1)
               | _ =>
                   turn_count
                     (apply_update s
                        (fst (run_node json_loads json_dumps str_strip client
                                n calls s)))
                   = turn_count s
               end).
  { destruct n; cbn [run_node fst].
    - reflexivity.
    - destruct (planner_shape json_loads str_strip (client calls) s)
        as [d ->]. reflexivity.
    - destruct (reviewer_shape json_loads json_dumps str_strip
                  (client calls) s) as [d ->]. reflexivity. }
  destruct (run_node json_loads json_dumps str_strip client n calls s)
    as [u calls'].
  cbn [fst] in Hu.
  destruct (next_node n (apply_update s u)) as [[n'|]|e].
  - rewrite outcome_trace_cons. cbn [turn_discipline].
    split; [exact Hu|apply IH].
  - cbn [outcome_trace turn_discipline]. split; [exact Hu|exact I].
  - cbn [outcome_trace turn_discipline]. split; [exact Hu|exact I].
Qed.

(** The state a run ends in is its initial state with the streamed updates
    merged in, in order. *)
Lemma run_from_final (fuel : nat) : forall n calls s tr final,
  run_from json_loads json_dumps str_strip client fuel n calls s
  = Finished tr final ->
  final = state_after s tr.
Proof.
  induction fuel as [|fuel IH]; intros n calls s tr final; [discriminate|].
  cbn [run_from].
  destruct (run_node json_loads json_dumps str_strip client n calls s)
    as [u calls'].
  destruct (next_node n (apply_update s u)) as [[n'|]|e];
    [|intros [= <- <-]; reflexivity|discriminate].
  destruct (run_from json_loads json_dumps str_strip client fuel n' calls'
              (apply_update s u)) as [tr' final'| |] eqn:Hr;
    cbn [cons_step]; try discriminate.
  intros [= <- <-]. apply IH in Hr. exact Hr.
Qed.

End RunFacts.

(** C8: the supervisor returns the one-key update [turn_count + 1], which
    leaves every other key as it was.  Along any execution of the graph the
    turn count never decreases, no planner or reviewer step changes it, and
    at every point it is the initial count plus the number of supervisor
    steps executed; so a run started at 0 ends with [turn_count] equal to
    the number of supervisor executions. *)
Theorem supervisor_alone_counts_turns
  (json_loads : string -> option pyval) (json_dumps : pyval -> string)
  (str_strip : string -> string) (client : client_fn)
  (fuel : nat) (s0 : AgentState) :
  supervisor_node s0 = upd_turn_count (turn_count s0 + 1)
  /\ apply_update s0 (supervisor_node s0)
     = mkState (title s0) (content s0) (email s0) (strict s0) (task s0)
               (llm s0) (planner_proposal s0) (reviewer_feedback s0)
               (turn_count s0 + 1)
  /\ (let run := graph_stream json_loads json_dumps str_strip client
                   fuel s0 in
      let tr := outcome_trace run in
      (forall tr1 tr2 tr3, tr = (tr1 ++ tr2 ++ tr3)%list ->
         turn_count (state_after s0 tr1)
         <= turn_count (state_after s0 (tr1 ++ tr2)%list))
      /\ (forall tr1 n u tr2, tr = (tr1 ++ (n, u) :: tr2)%list ->
            n <> supervisor ->
            turn_count (state_after s0 (tr1 ++ [(n, u)])%list)
            = turn_count (state_after s0 tr1))
      /\ (forall tr1 u tr2, tr = (tr1 ++ (supervisor, u) :: tr2)%list ->
            turn_count (state_after s0 (tr1 ++ [(supervisor, u)])%list)
            = turn_count (state_after s0 tr1) + 1)
      /\ turn_count (state_after s0 tr)
         = turn_count s0 + Z.of_nat (executions supervisor tr)
      /\ (forall final, run = Finished tr final ->
            turn_count final
            = turn_count s0 + Z.of_nat (executions supervisor tr)
            /\ (turn_count s0 = 0 ->
                turn_count final = Z.of_nat (executions supervisor tr)))).
Proof.
  split; [reflexivity|]. split; [reflexivity|].
  cbn zeta.
  pose proof (run_from_turn_discipline json_loads json_dumps str_strip client
                fuel supervisor 0%nat s0) as Hd.
  fold (graph_stream json_loads json_dumps str_strip client fuel s0) in Hd.
  set (run := graph_stream json_loads json_dumps str_strip client fuel s0) in *.
  repeat split.
  - intros tr1 tr2 tr3 E. rewrite E in Hd.
    apply turn_discipline_app in Hd. destruct Hd as [_ Hd].
    apply turn_discipline_app in Hd. destruct Hd as [Hd _].
    rewrite state_after_app. now apply turn_discipline_monotone.
  - intros tr1 n u tr2 E Hn. rewrite E in Hd.
    apply turn_discipline_app in Hd. destruct Hd as [_ [Hu _]].
    rewrite state_after_app. cbn.
    destruct n; [congruence|exact Hu|exact Hu].
  - intros tr1 u tr2 E. rewrite E in Hd.
    apply turn_discipline_app in Hd. destruct Hd as [_ [Hu _]].
    rewrite state_after_app. cbn. now rewrite Hu.
  - now apply turn_discipline_count.
  - apply run_from_final in H. rewrite H.
    now apply turn_discipline_count.
  - intros H0. apply run_from_final in H. rewrite H.
    rewrite (turn_discipline_count _ _ Hd). lia.
Qed.

Lemma supervisor_alone_counts_turns_witness :
  turn_count approve_final
  = Z.of_nat
      (executions supervisor
         (outcome_trace
            (graph_stream sample_loads sample_dumps sample_strip
               plan_then_approve 10 (initial_state "X" false)))).
Proof.
  destruct (supervisor_alone_counts_turns
              sample_loads sample_dumps sample_strip plan_then_approve
              10 (initial_state "X" false)) as (_ & _ & _ & _ & _ & _ & Hf).
  apply (Hf approve_final); reflexivity.
Defined.

(** ** Strict mode *)

Lemma apply_update_set_strict (b : bool) (s : AgentState) (u : update) :
  apply_update (set_strict b s) u = set_strict b (apply_update s u).
Proof. now destruct u. Qed.

Lemma router_decisions_set_strict (b : bool) (tr : trace) : forall s,
  router_decisions (set_strict b s) tr = router_decisions s tr.
Proof.
  induction tr as [|[n u] tr IH]; intros s; [reflexivity|].
  cbn [router_decisions]. rewrite apply_update_set_strict, IH.
  now destruct n.
Qed.

Lemma map_outcome_cons (f : AgentState -> AgentState) (st : step) (o : outcome) :
  map_outcome f (cons_step st o) = cons_step st (map_outcome f o).
Proof. now destruct o. Qed.

Lemma outcome_trace_map (f : AgentState -> AgentState) (o : outcome) :
  outcome_trace (map_outcome f o) = outcome_trace o.
Proof. now destruct o. Qed.

(** With the same responses, flipping [strict] changes nothing in a run but
    the [strict] key of the states it goes through. *)
Lemma run_from_set_strict
  (json_loads : string -> option pyval) (json_dumps : pyval -> string)
  (str_strip : string -> string) (responses : nat -> result string)
  (b : bool) (fuel : nat) : forall n calls s,
  run_from json_loads json_dumps str_strip (scripted responses) fuel n calls
           (set_strict b s)
  = map_outcome (set_strict b)
      (run_from json_loads json_dumps str_strip (scripted responses) fuel n
                calls s).
Proof.
  induction fuel as [|fuel IH]; intros n calls s; [reflexivity|].
  cbn [run_from].
  assert (Hn : run_node json_loads json_dumps str_strip (scripted responses)
                 n calls (set_strict b s)
               = run_node json_loads json_dumps str_strip (scripted responses)
                   n calls s)
    by (destruct n; reflexivity).
  rewrite Hn.
  destruct (run_node json_loads json_dumps str_strip (scripted responses)
              n calls s) as [u calls'].
  rewrite apply_update_set_strict.
  assert (Hx : next_node n (set_strict b (apply_update s u))
               = next_node n (apply_update s u))
    by (destruct n; reflexivity).
  rewrite Hx.
  destruct (next_node n (apply_update s u)) as [[n'|]|e]; try reflexivity.
  now rewrite IH, map_outcome_cons.
Qed.

(** C9: [strict] is read by the reviewer's prompt alone, where it selects
    the closing sentence; the planner's prompt, the supervisor and the router
    do not depend on it.  Two runs from states that differ in [strict] only,
    fed the same responses, stream the same steps with the same updates, see
    the same router decisions, and end (if the one does, so does the other)
    with the same turn count. *)
Theorem strict_changes_reviewer_wording_only
  (json_loads : string -> option pyval) (json_dumps : pyval -> string)
  (str_strip : string -> string) (responses : nat -> result string)
  (fuel : nat) (s : AgentState) (b : bool) :
  let run1 := graph_stream json_loads json_dumps str_strip
                (scripted responses) fuel s in
  let run2 := graph_stream json_loads json_dumps str_strip
                (scripted responses) fuel (set_strict b s) in
  planner_prompt (set_strict b s) = planner_prompt s
  /\ supervisor_node (set_strict b s) = supervisor_node s
  /\ router_logic (set_strict b s) = router_logic s
  /\ (exists before, forall b',
        reviewer_prompt json_dumps (set_strict b' s)
        = before
            ++ unlines ["Be " ++ (if b' then "very strict and critical"
                                  else "balanced and constructive") ++ "."])
  /\ outcome_trace run2 = outcome_trace run1
  /\ steps_of (outcome_trace run2) = steps_of (outcome_trace run1)
  /\ router_decisions (set_strict b s) (outcome_trace run2)
     = router_decisions s (outcome_trace run1)
  /\ (forall tr final, run1 = Finished tr final ->
        run2 = Finished tr (set_strict b final)
        /\ turn_count (set_strict b final) = turn_count final)
  /\ (forall tr final, run2 = Finished tr final ->
        exists final1, run1 = Finished tr final1
                       /\ turn_count final1 = turn_count final).
Proof.
  cbn zeta. unfold graph_stream.
  rewrite run_from_set_strict, outcome_trace_map, router_decisions_set_strict.
  do 3 (split; [reflexivity|]).
  split.
  { eexists. intros b'. unfold reviewer_prompt.
    change (planner_proposal (set_strict b' s)) with (planner_proposal s).
    change (strict (set_strict b' s)) with b'.
    match goal with
    | |- unlines ?ls = _ =>
        change ls with (firstn 17 ls ++ skipn 17 ls)%list
    end.
    cbn [firstn skipn]. rewrite unlines_app. reflexivity. }
  do 3 (split; [reflexivity|]).
  split.
  - intros tr final H. rewrite H. split; reflexivity.
  - intros tr final H.
    destruct (run_from json_loads json_dumps str_strip (scripted responses)
                fuel supervisor 0%nat s) as [tr1 final1| |];
      cbn [map_outcome] in H; try discriminate.
    injection H as <- <-. exists final1. split; reflexivity.
Qed.

Lemma strict_changes_reviewer_wording_only_witness :
  graph_stream sample_loads sample_dumps sample_strip plan_issues_plan 20
               (set_strict true (initial_state "X" false))
  = Finished loop_trace (set_strict true (sample_state 5))
  /\ turn_count (set_strict true (sample_state 5))
     = turn_count (sample_state 5).
Proof.
  destruct (strict_changes_reviewer_wording_only
              sample_loads sample_dumps sample_strip
              (fun i => match i with
                        | 1%nat => Ok issues_text
                        | _ => Ok plan_text
                        end)
              20 (initial_state "X" false) true)
    as (_ & _ & _ & _ & _ & _ & _ & H & _).
  apply (H loop_trace (sample_state 5)). vm_compute. reflexivity.
Defined.

(** ** Unfolding a run step by step *)

Section Stepping.

Variable json_loads : string -> option pyval.
Variable json_dumps : pyval -> string.
Variable str_strip : string -> string.
Variable client : client_fn.

Lemma run_supervisor_planner fuel calls s :
  router_logic (apply_update s (supervisor_node s)) = "planner" ->
  run_from json_loads json_dumps str_strip client (S fuel) supervisor calls s
  = cons_step (supervisor, supervisor_node s)
      (run_from json_loads json_dumps str_strip client fuel planner calls
         (apply_update s (supervisor_node s))).
Proof. intros H. cbn [run_from run_node next_node]. now rewrite H. Qed.

Lemma run_supervisor_reviewer fuel calls s :
  router_logic (apply_update s (supervisor_node s)) = "reviewer" ->
  run_from json_loads json_dumps str_strip client (S fuel) supervisor calls s
  = cons_step (supervisor, supervisor_node s)
      (run_from json_loads json_dumps str_strip client fuel reviewer calls
         (apply_update s (supervisor_node s))).
Proof. intros H. cbn [run_from run_node next_node]. now rewrite H. Qed.

Lemma run_supervisor_end fuel calls s :
  router_logic (apply_update s (supervisor_node s)) = END ->
  run_from json_loads json_dumps str_strip client (S fuel) supervisor calls s
  = Finished [(supervisor, supervisor_node s)]
      (apply_update s (supervisor_node s)).
Proof. intros H. cbn [run_from run_node next_node]. now rewrite H. Qed.

Lemma run_planner fuel calls s :
  run_from json_loads json_dumps str_strip client (S fuel) planner calls s
  = cons_step (planner, planner_node json_loads str_strip (client calls) s)
      (run_from json_loads json_dumps str_strip client fuel supervisor
         (S calls)
         (apply_update s
            (planner_node json_loads str_strip (client calls) s))).
Proof. reflexivity. Qed.

Lemma run_reviewer fuel calls s :
  run_from json_loads json_dumps str_strip client (S fuel) reviewer calls s
  = cons_step
      (reviewer,
       reviewer_node json_loads json_dumps str_strip (client calls) s)
      (run_from json_loads json_dumps str_strip client fuel supervisor
         (S calls)
         (apply_update s
            (reviewer_node json_loads json_dumps str_strip
               (client calls) s))).
Proof. reflexivity. Qed.

(** More fuel does not change a run that has reached [END]. *)
Lemma run_from_more_fuel (fuel : nat) : forall extra n calls s tr final,
  run_from json_loads json_dumps str_strip client fuel n calls s
  = Finished tr final ->
  run_from json_loads json_dumps str_strip client (fuel + extra) n calls s
  = Finished tr final.
Proof.
  induction fuel as [|fuel IH]; intros extra n calls s tr final;
    [discriminate|].
  cbn [run_from Nat.add].
  destruct (run_node json_loads json_dumps str_strip client n calls s)
    as [u calls'].
  destruct (next_node n (apply_update s u)) as [[n'|]|e]; try trivial.
  destruct (run_from json_loads json_dumps str_strip client fuel n' calls'
              (apply_update s u)) as [tr' final'| |] eqn:Hr;
    cbn [cons_step]; try discriminate.
  intros H. now rewrite (IH extra _ _ _ _ _ Hr).
Qed.

End Stepping.

(** ** Termination *)


Section Termination.

Variable json_loads : string -> option pyval.
Variable json_dumps : pyval -> string.
Variable str_strip : string -> string.
Variable client : client_fn.
Hypothesis client_ok : never_empty_object json_loads str_strip client.







End Termination.


Lemma always_issues_never_empty :
  never_empty_object sample_loads sample_strip (always issues_text).
Proof.
  intros i model prompt response H. injection H as <-.
  vm_compute. discriminate.
Qed.




(** ** Scenarios *)

(** C6 (as the code has it): from a state with empty proposal, empty
    feedback and turn count 0, if the first planner step stores a non-empty
    proposal and the first review stores a non-empty feedback whose
    [has_issues] is false, the run executes exactly supervisor, planner,
    supervisor, reviewer, supervisor and stops, with [turn_count] 3. *)
Theorem approved_first_review_run
  (json_loads : string -> option pyval) (json_dumps : pyval -> string)
  (str_strip : string -> string) (client : client_fn)
  (s0 : AgentState) (p f : pydict) :
  planner_proposal s0 = [] -> reviewer_feedback s0 = [] -> turn_count s0 = 0 ->
  let s1 := apply_update s0 (supervisor_node s0) in
  let s2 := apply_update s1 (upd_planner_proposal p) in
  let s3 := apply_update s2 (supervisor_node s2) in
  planner_node json_loads str_strip (client 0%nat) s1
  = upd_planner_proposal p ->
  p <> [] ->
  reviewer_node json_loads json_dumps str_strip (client 1%nat) s3
  = upd_reviewer_feedback f ->
  f <> [] ->
  truthy (dict_get f "has_issues" (PBool false)) = false ->
  forall fuel, (5 <= fuel)%nat ->
  exists tr final,
    graph_stream json_loads json_dumps str_strip client fuel s0
    = Finished tr final
    /\ steps_of tr = [supervisor; planner; supervisor; reviewer; supervisor]
    /\ router_decisions s0 tr = ["planner"; "reviewer"; END]
    /\ turn_count final = 3.
Proof.
  intros Hp0 Hf0 Ht0 s1 s2 s3 Hplan Hp Hrev Hf Hi fuel Hfuel.
  set (s4 := apply_update s3 (upd_reviewer_feedback f)).
  set (s5 := apply_update s4 (supervisor_node s4)).
  assert (R1 : router_logic s1 = "planner")
    by (apply router_no_proposal; exact Hp0).
  assert (R3 : router_logic s3 = "reviewer")
    by (apply router_no_feedback; [exact Hp|exact Hf0]).
  assert (R5 : router_logic s5 = END)
    by (apply router_no_issues; [exact Hp|exact Hf|exact Hi]).
  exists [(supervisor, supervisor_node s0); (planner, upd_planner_proposal p);
          (supervisor, supervisor_node s2); (reviewer, upd_reviewer_feedback f);
          (supervisor, supervisor_node s4)], s5.
  split; [|split; [reflexivity|split]].
  - replace fuel with (5 + (fuel - 5))%nat by lia.
    apply run_from_more_fuel.
    rewrite run_supervisor_planner by exact R1.
    rewrite run_planner. fold s1. rewrite Hplan. fold s2.
    rewrite run_supervisor_reviewer by exact R3.
    rewrite run_reviewer. fold s3. rewrite Hrev. fold s4.
    rewrite run_supervisor_end by exact R5.
    reflexivity.
  - cbn [router_decisions]. fold s1 s2 s3 s4 s5.
    now rewrite R1, R3, R5.
  - cbn. rewrite Ht0. reflexivity.
Qed.

Lemma approved_first_review_run_witness :
  exists tr final,
    graph_stream sample_loads sample_dumps sample_strip plan_then_approve
                 5 (initial_state "X" false)
    = Finished tr final
    /\ steps_of tr = [supervisor; planner; supervisor; reviewer; supervisor]
    /\ router_decisions (initial_state "X" false) tr
       = ["planner"; "reviewer"; END]
    /\ turn_count final = 3.
Proof.
  apply (approved_first_review_run
           sample_loads sample_dumps sample_strip plan_then_approve
           (initial_state "X" false)
           [("plan", PStr "p"); ("steps", PList [])]
           [("has_issues", PBool false)]);
    try reflexivity; try discriminate; lia.
Defined.

(** C6 as stated fails: when the first response of the planner parses to
    [{}], the planner runs a second time before the review, which approves;
    the run has seven steps and ends with [turn_count] 4. *)
Lemma empty_first_plan_run :
  planner_proposal (initial_state "X" false) = []
  /\ reviewer_feedback (initial_state "X" false) = []
  /\ turn_count (initial_state "X" false) = 0
  /\ graph_stream sample_loads sample_dumps sample_strip empty_plan_approve
                  20 (initial_state "X" false)
     = Finished
         [(supervisor, upd_turn_count 1);
          (planner, upd_planner_proposal []);
          (supervisor, upd_turn_count 2);
          (planner, upd_planner_proposal
                      [("plan", PStr "p"); ("steps", PList [])]);
          (supervisor, upd_turn_count 3);
          (reviewer, upd_reviewer_feedback [("has_issues", PBool false)]);
          (supervisor, upd_turn_count 4)]
         (mkState "LangGraph Agent Task" "X" "user@example.com" false "X"
                  "smollm:1.7b"
                  [("plan", PStr "p"); ("steps", PList [])]
                  [("has_issues", PBool false)] 4).
Proof. repeat split; reflexivity. Qed.

(** C3 at a failing input: a plan, one review that reports issues, then
    plans.  The review is merged once and never cleared, so after the
    loop-back at turn 3 the router sends the run to the planner again at
    turn 4: two planner steps follow each other with only the supervisor in
    between, and the reviewer runs once in the whole run. *)
Theorem loop_back_plan_is_not_reviewed :
  graph_stream sample_loads sample_dumps sample_strip plan_issues_plan 20
               (initial_state "X" false)
  = Finished loop_trace (sample_state 5)
  /\ steps_of loop_trace
     = [supervisor; planner; supervisor; reviewer; supervisor;
        planner; supervisor; planner; supervisor]
  /\ router_decisions (initial_state "X" false) loop_trace
     = ["planner"; "reviewer"; "planner"; "planner"; END]
  /\ executions reviewer loop_trace = 1%nat.
Proof. repeat split; vm_compute; reflexivity. Qed.

(** The same for any loop-back: once the router has sent the run back to
    the planner for a revision, the decision after that planner step is the
    planner again or END, never the reviewer. *)
Lemma after_loop_back_never_reviewer
  (json_loads : string -> option pyval) (str_strip : string -> string)
  (generate : generate_fn) (s : AgentState) :
  planner_proposal s <> [] -> reviewer_feedback s <> [] ->
  router_logic s = "planner" ->
  let s' := apply_update s (planner_node json_loads str_strip generate s) in
  router_logic (apply_update s' (supervisor_node s')) <> "reviewer".
Proof.
  intros Hp Hf Hr s'.
  destruct (planner_shape json_loads str_strip generate s) as [d Hd].
  unfold s'. rewrite Hd.
  unfold router_logic.
  cbn [apply_update supervisor_node planner_proposal reviewer_feedback
       turn_count].
  apply truthy_dict_true in Hf. rewrite Hf. cbn [negb].
  destruct (negb (truthy (PDict d))); [discriminate|].
  destruct (truthy (dict_get _ _ _)); [|discriminate].
  destruct (_ >=? _); discriminate.
Qed.

(** ** The correction loop of the test *)

(** The router of the test is the router of [langgraph_agents.py]. *)
Lemma test_router_same (t : CorrectionLoop.AgentState) :
  CorrectionLoop.router_logic t = router_logic (as_main t).
Proof. reflexivity. Qed.

Section CorrectionLoopFacts.

Variable json_loads : string -> option pyval.
Variable json_dumps : pyval -> string.
Variable str_strip : string -> string.
Variable dict_slice_error : exn.
Variable client : client_fn.
Hypothesis client_ok : never_empty_object json_loads str_strip client.

Lemma test_planner_step_nonempty calls s :
  exists d,
    CorrectionLoop.planner_node json_loads json_dumps str_strip
      dict_slice_error (client calls) s
    = upd_planner_proposal d /\ d <> [].
Proof.
  unfold CorrectionLoop.planner_node, CorrectionLoop.planner_try,
    coerce_proposal.
  destruct (client calls (CorrectionLoop.llm s)
              (CorrectionLoop.planner_prompt json_dumps s))
    as [response|e] eqn:Hg; cbn [bind try_except];
    [|eexists; split; [reflexivity|discriminate]].
  pose proof (client_ok _ _ _ _ Hg) as Hne.
  destruct (json_loads (str_strip response)) as [v|].
  - destruct v; cbn [method_get bind try_except];
      try (eexists; split; [reflexivity|discriminate]).
    destruct (py_len _); cbn [bind try_except];
      [|eexists; split; [reflexivity|discriminate]].
    destruct (CorrectionLoop.slice_100 _ _); cbn [bind try_except];
      [|eexists; split; [reflexivity|discriminate]].
    destruct (print_formatted _ _); cbn [bind try_except];
      [|eexists; split; [reflexivity|discriminate]].
    exists d. split; [reflexivity|congruence].
  - cbn. eexists; split; [reflexivity|discriminate].
Qed.

Lemma test_run_supervisor_planner fuel calls s :
  CorrectionLoop.router_logic
    (CorrectionLoop.apply_update s (CorrectionLoop.supervisor_node s))
  = "planner" ->
  CorrectionLoop.run_from json_loads json_dumps str_strip dict_slice_error
    client (S fuel) supervisor calls s
  = CorrectionLoop.cons_step (supervisor, CorrectionLoop.supervisor_node s)
      (CorrectionLoop.run_from json_loads json_dumps str_strip
         dict_slice_error client fuel planner calls
         (CorrectionLoop.apply_update s (CorrectionLoop.supervisor_node s))).
Proof.
  intros H.
  cbn [CorrectionLoop.run_from CorrectionLoop.run_node
       CorrectionLoop.next_node].
  now rewrite H.
Qed.

Lemma test_run_supervisor_reviewer fuel calls s :
  CorrectionLoop.router_logic
    (CorrectionLoop.apply_update s (CorrectionLoop.supervisor_node s))
  = "reviewer" ->
  CorrectionLoop.run_from json_loads json_dumps str_strip dict_slice_error
    client (S fuel) supervisor calls s
  = CorrectionLoop.cons_step (supervisor, CorrectionLoop.supervisor_node s)
      (CorrectionLoop.run_from json_loads json_dumps str_strip
         dict_slice_error client fuel reviewer calls
         (CorrectionLoop.apply_update s (CorrectionLoop.supervisor_node s))).
Proof.
  intros H.
  cbn [CorrectionLoop.run_from CorrectionLoop.run_node
       CorrectionLoop.next_node].
  now rewrite H.
Qed.

Lemma test_run_supervisor_end fuel calls s :
  CorrectionLoop.router_logic
    (CorrectionLoop.apply_update s (CorrectionLoop.supervisor_node s))
  = END ->
  CorrectionLoop.run_from json_loads json_dumps str_strip dict_slice_error
    client (S fuel) supervisor calls s
  = CorrectionLoop.Finished [(supervisor, CorrectionLoop.supervisor_node s)]
      (CorrectionLoop.apply_update s (CorrectionLoop.supervisor_node s)).
Proof.
  intros H.
  cbn [CorrectionLoop.run_from CorrectionLoop.run_node
       CorrectionLoop.next_node].
  now rewrite H.
Qed.

Lemma test_run_planner fuel calls s :
  CorrectionLoop.run_from json_loads json_dumps str_strip dict_slice_error
    client (S fuel) planner calls s
  = CorrectionLoop.cons_step
      (planner,
       CorrectionLoop.planner_node json_loads json_dumps str_strip
         dict_slice_error (client calls) s)
      (CorrectionLoop.run_from json_loads json_dumps str_strip
         dict_slice_error client fuel supervisor (S calls)
         (CorrectionLoop.apply_update s
            (CorrectionLoop.planner_node json_loads json_dumps str_strip
               dict_slice_error (client calls) s))).
Proof. reflexivity. Qed.

Lemma test_run_reviewer fuel calls s :
  CorrectionLoop.run_from json_loads json_dumps str_strip dict_slice_error
    client (S fuel) reviewer calls s
  = CorrectionLoop.cons_step
      (reviewer, CorrectionLoop.reviewer_node_always_issues s)
      (CorrectionLoop.run_from json_loads json_dumps str_strip
         dict_slice_error client fuel supervisor calls
         (CorrectionLoop.apply_update s
            (CorrectionLoop.reviewer_node_always_issues s))).
Proof. reflexivity. Qed.

(** The run of the correction-loop test, for any task and any client whose
    responses never parse to [{}]: the reviewer runs once, at turn 2, and
    reports issues; both revisions that follow go unreviewed, and the run
    ends at turn 5 with [has_issues] still true.  The approving branch of
    [reviewer_node_always_issues] is never taken. *)
Lemma correction_loop_reviews_once (task : string) (fuel : nat) :
  (9 <= fuel)%nat ->
  exists tr final,
    CorrectionLoop.graph_stream json_loads json_dumps str_strip
      dict_slice_error client fuel (CorrectionLoop.initial_state task)
    = CorrectionLoop.Finished tr final
    /\ steps_of tr
       = [supervisor; planner; supervisor; reviewer; supervisor;
          planner; supervisor; planner; supervisor]
    /\ executions reviewer tr = 1%nat
    /\ dict_get (CorrectionLoop.reviewer_feedback final) "has_issues"
                (PBool false) = PBool true
    /\ CorrectionLoop.turn_count final = 5.
Proof.
  intros Hfuel.
  replace fuel with (9 + (fuel - 9))%nat by lia.
  generalize (fuel - 9)%nat as extra. intros extra. cbn [Nat.add].
  unfold CorrectionLoop.graph_stream.
  set (s0 := CorrectionLoop.initial_state task).
  set (s1 := CorrectionLoop.apply_update s0 (CorrectionLoop.supervisor_node s0)).
  destruct (test_planner_step_nonempty 0 s1) as (d1 & H1 & N1).
  set (s2 := CorrectionLoop.apply_update s1 (upd_planner_proposal d1)).
  set (s3 := CorrectionLoop.apply_update s2 (CorrectionLoop.supervisor_node s2)).
  set (s4 := CorrectionLoop.apply_update s3
               (CorrectionLoop.reviewer_node_always_issues s3)).
  set (s5 := CorrectionLoop.apply_update s4 (CorrectionLoop.supervisor_node s4)).
  destruct (test_planner_step_nonempty 1 s5) as (d2 & H2 & N2).
  set (s6 := CorrectionLoop.apply_update s5 (upd_planner_proposal d2)).
  set (s7 := CorrectionLoop.apply_update s6 (CorrectionLoop.supervisor_node s6)).
  destruct (test_planner_step_nonempty 2 s7) as (d3 & H3 & N3).
  set (s8 := CorrectionLoop.apply_update s7 (upd_planner_proposal d3)).
  set (s9 := CorrectionLoop.apply_update s8 (CorrectionLoop.supervisor_node s8)).
  assert (R1 : CorrectionLoop.router_logic s1 = "planner") by reflexivity.
  assert (R3 : CorrectionLoop.router_logic s3 = "reviewer").
  { rewrite test_router_same. apply router_no_feedback; [exact N1|reflexivity]. }
  assert (R5 : CorrectionLoop.router_logic s5 = "planner").
  { rewrite test_router_same.
    rewrite router_issues; [reflexivity|exact N1|discriminate|reflexivity]. }
  assert (R7 : CorrectionLoop.router_logic s7 = "planner").
  { rewrite test_router_same.
    rewrite router_issues; [reflexivity|exact N2|discriminate|reflexivity]. }
  assert (R9 : CorrectionLoop.router_logic s9 = END).
  { rewrite test_router_same.
    rewrite router_issues; [reflexivity|exact N3|discriminate|reflexivity]. }
  eexists _, s9. split; [|split; [|split; [|split]]].
  - rewrite test_run_supervisor_planner by exact R1.
    rewrite test_run_planner. fold s1. rewrite H1. fold s2.
    rewrite test_run_supervisor_reviewer by exact R3.
    rewrite test_run_reviewer. fold s3 s4.
    rewrite test_run_supervisor_planner by exact R5.
    rewrite test_run_planner. fold s5. rewrite H2. fold s6.
    rewrite test_run_supervisor_planner by exact R7.
    rewrite test_run_planner. fold s7. rewrite H3. fold s8.
    rewrite test_run_supervisor_end by exact R9.
    reflexivity.
  - reflexivity.
  - reflexivity.
  - reflexivity.
  - reflexivity.
Qed.

End CorrectionLoopFacts.

(** * Further properties of the graph *)

(** ** What the router's answers say about the state *)

Lemma router_reviewer_inv (s : AgentState) :
  router_logic s = "reviewer" ->
  planner_proposal s <> [] /\ reviewer_feedback s = [].
Proof.
  unfold router_logic, END.
  destruct (planner_proposal s) as [|kv p]; cbn [truthy negb];
    [discriminate|].
  destruct (reviewer_feedback s) as [|kv' f]; cbn [truthy negb].
  - intros _. split; [discriminate|reflexivity].
  - destruct (truthy (dict_get _ _ _)); [|discriminate].
    destruct (_ >=? _); discriminate.
Qed.

Lemma router_planner_inv (s : AgentState) :
  router_logic s = "planner" ->
  planner_proposal s = []
  \/ (planner_proposal s <> [] /\ reviewer_feedback s <> []
      /\ truthy (dict_get (reviewer_feedback s) "has_issues" (PBool false))
         = true
      /\ turn_count s < max_turns).
Proof.
  unfold router_logic, END.
  destruct (planner_proposal s) as [|kv p]; cbn [truthy negb]; [now left|].
  destruct (reviewer_feedback s) as [|kv' f]; cbn [truthy negb];
    [discriminate|].
  destruct (truthy (dict_get _ _ _)); [|discriminate].
  destruct (Z.geb_spec (turn_count s) max_turns); [discriminate|].
  intros _. right. repeat split; try discriminate. assumption.
Qed.

Lemma router_end_inv (s : AgentState) :
  router_logic s = END ->
  planner_proposal s <> [] /\ reviewer_feedback s <> []
  /\ (truthy (dict_get (reviewer_feedback s) "has_issues" (PBool false))
      = false
      \/ turn_count s >= max_turns).
Proof.
  unfold router_logic, END.
  destruct (planner_proposal s) as [|kv p]; cbn [truthy negb];
    [discriminate|].
  destruct (reviewer_feedback s) as [|kv' f]; cbn [truthy negb];
    [discriminate|].
  destruct (truthy (dict_get _ _ _)).
  - destruct (Z.geb_spec (turn_count s) max_turns); [|discriminate].
    intros _. repeat split; try discriminate. right. lia.
  - intros _. repeat split; try discriminate. now left.
Qed.

(** The conditional edge, read backwards. *)
Lemma next_node_inv (n : node) (s : AgentState) (target : option node) :
  next_node n s = Ok target ->
  match target with
  | Some supervisor => n <> supervisor
  | Some planner => n = supervisor /\ router_logic s = "planner"
  | Some reviewer => n = supervisor /\ router_logic s = "reviewer"
  | None => n = supervisor /\ router_logic s = END
  end.
Proof.
  destruct n; cbn [next_node].
  - destruct (router_logic_cases s) as [H|[H|H]]; rewrite H; cbn;
      intros [= <-]; split; reflexivity.
  - intros [= <-]. discriminate.
  - intros [= <-]. discriminate.
Qed.

(** ** Counting steps *)

Lemma executions_cons (n m : node) (u : update) (tr : trace) :
  executions n ((m, u) :: tr)
  = ((if node_eqb m n then 1 else 0) + executions n tr)%nat.
Proof. unfold executions. cbn. now destruct (node_eqb m n). Qed.

Lemma executions_app (n : node) (tr1 tr2 : trace) :
  executions n (tr1 ++ tr2)%list
  = (executions n tr1 + executions n tr2)%nat.
Proof. unfold executions. now rewrite filter_app, length_app. Qed.

Lemma length_by_node (tr : trace) :
  List.length tr
  = (executions supervisor tr + executions planner tr
     + executions reviewer tr)%nat.
Proof.
  induction tr as [|[m u] tr IH]; [reflexivity|].
  rewrite !executions_cons. cbn [List.length].
  destruct m; cbn [node_eqb]; lia.
Qed.

Section TraceFacts.

Variable json_loads : string -> option pyval.
Variable json_dumps : pyval -> string.
Variable str_strip : string -> string.
Variable client : client_fn.

(** A run that takes a step starts with the node it is started at. *)
Lemma run_from_head fuel n calls s :
  outcome_trace
    (run_from json_loads json_dumps str_strip client fuel n calls s) = []
  \/ exists u rest,
      outcome_trace
        (run_from json_loads json_dumps str_strip client fuel n calls s)
      = (n, u) :: rest.
Proof.
  destruct fuel as [|fuel]; [now left|]. right. cbn [run_from].
  destruct (run_node json_loads json_dumps str_strip client n calls s)
    as [u calls'].
  destruct (next_node n (apply_update s u)) as [[n'|]|e].
  - rewrite outcome_trace_cons. eauto.
  - cbn. eauto.
  - cbn. eauto.
Qed.

Lemma run_node_shape n calls s :
  step_shape
    (n, fst (run_node json_loads json_dumps str_strip client n calls s)).
Proof.
  destruct n; cbn [run_node fst].
  - exact I.
  - destruct (planner_shape json_loads str_strip (client calls) s)
      as [d ->]. exact I.
  - destruct (reviewer_shape json_loads json_dumps str_strip
                (client calls) s) as [d ->]. exact I.
Qed.

Lemma run_trace_shapes (fuel : nat) : forall n calls s,
  Forall step_shape
    (outcome_trace
       (run_from json_loads json_dumps str_strip client fuel n calls s)).
Proof.
  induction fuel as [|fuel IH]; intros n calls s; [constructor|].
  cbn [run_from].
  pose proof (run_node_shape n calls s) as Hs.
  destruct (run_node json_loads json_dumps str_strip client n calls s)
    as [u calls'].
  cbn [fst] in Hs.
  destruct (next_node n (apply_update s u)) as [[n'|]|e].
  - rewrite outcome_trace_cons. constructor; [exact Hs|apply IH].
  - cbn. constructor; [exact Hs|constructor].
  - cbn. constructor; [exact Hs|constructor].
Qed.

(** Past the first step, an agent step is one the router has asked for. *)
Lemma agent_step_dispatched (fuel : nat) : forall n calls s tr1 m u tr2,
  outcome_trace
    (run_from json_loads json_dumps str_strip client fuel n calls s)
  = (tr1 ++ (m, u) :: tr2)%list ->
  tr1 <> [] ->
  (m = planner -> router_logic (state_after s tr1) = "planner")
  /\ (m = reviewer -> router_logic (state_after s tr1) = "reviewer").
Proof.
  induction fuel as [|fuel IH]; intros n calls s tr1 m u tr2 E Hne.
  - destruct tr1; discriminate.
  - cbn [run_from] in E.
    destruct (run_node json_loads json_dumps str_strip client n calls s)
      as [u0 calls'].
    destruct tr1 as [|st tr1]; [congruence|].
    destruct (next_node n (apply_update s u0)) as [[n'|]|e] eqn:Hnext.
    + rewrite outcome_trace_cons in E. injection E as <- E.
      change (state_after s ((n, u0) :: tr1))
        with (state_after (apply_update s u0) tr1).
      destruct tr1 as [|st' tr1].
      * cbn [app] in E.
        destruct (run_from_head fuel n' calls' (apply_update s u0))
          as [H|(u' & rest & H)]; rewrite H in E; [discriminate|].
        injection E as <- _ _.
        apply next_node_inv in Hnext.
        split; intros ->; cbn [state_after fold_left]; tauto.
      * apply (IH _ _ _ _ _ _ _ E). discriminate.
    + cbn in E. injection E as _ E. destruct tr1; discriminate.
    + cbn in E. injection E as _ E. destruct tr1; discriminate.
Qed.

(** A run that reaches [END] does so on a supervisor step after which the
    router answers [END]. *)
Lemma run_from_finished_end (fuel : nat) : forall n calls s tr final,
  run_from json_loads json_dumps str_strip client fuel n calls s
  = Finished tr final ->
  router_logic final = END
  /\ exists tr' u, tr = (tr' ++ [(supervisor, u)])%list.
Proof.
  induction fuel as [|fuel IH]; intros n calls s tr final; [discriminate|].
  cbn [run_from].
  destruct (run_node json_loads json_dumps str_strip client n calls s)
    as [u0 calls'].
  destruct (next_node n (apply_update s u0)) as [[n'|]|e] eqn:Hnext;
    [| |discriminate].
  - destruct (run_from json_loads json_dumps str_strip client fuel n' calls'
                (apply_update s u0)) as [tr0 final0| |] eqn:Hr;
      cbn [cons_step]; try discriminate.
    intros [= <- <-].
    destruct (IH _ _ _ _ _ Hr) as (Hend & tr' & u & ->).
    split; [exact Hend|]. now exists ((n, u0) :: tr'), u.
  - intros [= <- <-]. apply next_node_inv in Hnext.
    destruct Hnext as [-> Hend]. split; [exact Hend|]. now exists [], u0.
Qed.

(** In a finished run the supervisor has run once more than the agents
    when the run starts at the supervisor, and as often as the agents when
    it starts at an agent. *)
Lemma run_from_finished_counts (fuel : nat) : forall n calls s tr final,
  run_from json_loads json_dumps str_strip client fuel n calls s
  = Finished tr final ->
  executions supervisor tr
  = ((if node_eqb n supervisor then 1 else 0) + agent_steps tr)%nat.
Proof.
  induction fuel as [|fuel IH]; intros n calls s tr final; [discriminate|].
  cbn [run_from].
  destruct (run_node json_loads json_dumps str_strip client n calls s)
    as [u0 calls'].
  destruct (next_node n (apply_update s u0)) as [[n'|]|e] eqn:Hnext;
    [| |discriminate].
  - destruct (run_from json_loads json_dumps str_strip client fuel n' calls'
                (apply_update s u0)) as [tr0 final0| |] eqn:Hr;
      cbn [cons_step]; try discriminate.
    intros [= <- <-]. apply IH in Hr. apply next_node_inv in Hnext.
    unfold agent_steps in *. rewrite !executions_cons, Hr.
    destruct n'; destruct n; cbn [node_eqb]; try lia;
      destruct Hnext; congruence.
  - intros [= <- <-]. apply next_node_inv in Hnext.
    destruct Hnext as [-> _]. reflexivity.
Qed.

End TraceFacts.

(** ** Where the agents run *)

(** X1: in every execution of the graph, the reviewer runs only on a state
    that has a proposal and no feedback, and the planner runs only on a state
    without a proposal, or else with a proposal and a review that reports
    issues, below the turn limit. *)
Theorem agent_steps_follow_router
  (json_loads : string -> option pyval) (json_dumps : pyval -> string)
  (str_strip : string -> string) (client : client_fn)
  (fuel : nat) (s0 : AgentState) (tr1 : trace) (m : node) (u : update)
  (tr2 : trace) :
  outcome_trace (graph_stream json_loads json_dumps str_strip client fuel s0)
  = (tr1 ++ (m, u) :: tr2)%list ->
  (m = reviewer ->
   planner_proposal (state_after s0 tr1) <> []
   /\ reviewer_feedback (state_after s0 tr1) = [])
  /\ (m = planner ->
      planner_proposal (state_after s0 tr1) = []
      \/ (planner_proposal (state_after s0 tr1) <> []
          /\ reviewer_feedback (state_after s0 tr1) <> []
          /\ truthy (dict_get (reviewer_feedback (state_after s0 tr1))
                              "has_issues" (PBool false)) = true
          /\ turn_count (state_after s0 tr1) < max_turns)).
Proof.
  intros E. unfold graph_stream in E.
  destruct tr1 as [|st tr1].
  - destruct (run_from_head json_loads json_dumps str_strip client
                fuel supervisor 0%nat s0) as [H|(u' & rest & H)];
      rewrite H in E; [discriminate|].
    injection E as <- _ _. split; discriminate.
  - destruct (agent_step_dispatched json_loads json_dumps str_strip client
                fuel _ _ _ _ _ _ _ E) as [Hp Hr]; [discriminate|].
    split; intros Hm.
    + apply router_reviewer_inv. now apply Hr.
    + apply router_planner_inv. now apply Hp.
Qed.

Lemma agent_steps_follow_router_witness :
  planner_proposal (state_after (initial_state "X" false) (firstn 3 loop_trace))
  <> []
  /\ reviewer_feedback
       (state_after (initial_state "X" false) (firstn 3 loop_trace)) = [].
Proof.
  apply (agent_steps_follow_router
           sample_loads sample_dumps sample_strip plan_issues_plan 20
           (initial_state "X" false) (firstn 3 loop_trace) reviewer
           (upd_reviewer_feedback [("has_issues", PBool true)])
           (skipn 4 loop_trace)).
  - vm_compute. reflexivity.
  - reflexivity.
Defined.

(** X2: once a non-empty review is in the state, no later step of the
    execution is a reviewer step and the review stays as it is to the end:
    no revised plan is ever reviewed. *)
Theorem stored_review_is_final
  (json_loads : string -> option pyval) (json_dumps : pyval -> string)
  (str_strip : string -> string) (client : client_fn)
  (fuel : nat) (s0 : AgentState) (tr1 tr2 tr3 : trace) :
  outcome_trace (graph_stream json_loads json_dumps str_strip client fuel s0)
  = (tr1 ++ tr2 ++ tr3)%list ->
  reviewer_feedback (state_after s0 tr1) <> [] ->
  executions reviewer tr2 = 0%nat
  /\ reviewer_feedback (state_after s0 (tr1 ++ tr2)%list)
     = reviewer_feedback (state_after s0 tr1).
Proof.
  revert tr3. induction tr2 as [|[m u] tr2 IH] using rev_ind;
    intros tr3 E Hf.
  - rewrite app_nil_r. split; reflexivity.
  - rewrite <- app_assoc in E. cbn [app] in E.
    destruct (IH _ E Hf) as [Hn Hsame].
    pose proof (run_trace_shapes json_loads json_dumps str_strip client
                  fuel supervisor 0%nat s0) as Hshape.
    fold (graph_stream json_loads json_dumps str_strip client fuel s0)
      in Hshape.
    rewrite E, app_assoc in Hshape.
    apply Forall_app in Hshape. destruct Hshape as [_ Hshape].
    apply Forall_inv in Hshape.
    rewrite app_assoc in E.
    rewrite executions_app, Hn, executions_cons.
    rewrite (app_assoc tr1 tr2), state_after_app.
    cbn [state_after fold_left snd].
    fold (state_after s0 (tr1 ++ tr2)%list).
    destruct m; destruct u; cbn [step_shape] in Hshape; try contradiction;
      cbn [node_eqb apply_update reviewer_feedback executions];
      try (split; [reflexivity|exact Hsame]).
    exfalso.
    destruct (tr1 ++ tr2)%list as [|st pre] eqn:Hpre.
    + unfold graph_stream in E. cbn [app] in E.
      destruct (run_from_head json_loads json_dumps str_strip client
                  fuel supervisor 0%nat s0) as [H|(u' & rest & H)];
        rewrite H in E; discriminate.
    + unfold graph_stream in E.
      destruct (agent_step_dispatched json_loads json_dumps str_strip client
                  fuel _ _ _ _ _ _ _ E) as [_ Hr]; [discriminate|].
      destruct (router_reviewer_inv _ (Hr eq_refl)) as [_ Hempty].
      rewrite Hempty in Hsame. now apply Hf.
Qed.

Lemma stored_review_is_final_witness :
  executions reviewer (skipn 4 loop_trace) = 0%nat
  /\ reviewer_feedback
       (state_after (initial_state "X" false)
          (firstn 4 loop_trace ++ skipn 4 loop_trace)%list)
     = reviewer_feedback
         (state_after (initial_state "X" false) (firstn 4 loop_trace)).
Proof.
  apply (stored_review_is_final
           sample_loads sample_dumps sample_strip plan_issues_plan 20
           (initial_state "X" false) (firstn 4 loop_trace)
           (skipn 4 loop_trace) []).
  - vm_compute. reflexivity.
  - vm_compute. discriminate.
Defined.

(** X3: an execution ends only on a supervisor step, and the state it ends
    in holds a non-empty proposal and a non-empty review which either
    reports no issues or is met at the turn limit or beyond. *)
Theorem finished_run_is_settled
  (json_loads : string -> option pyval) (json_dumps : pyval -> string)
  (str_strip : string -> string) (client : client_fn)
  (fuel : nat) (s0 : AgentState) (tr : trace) (final : AgentState) :
  graph_stream json_loads json_dumps str_strip client fuel s0
  = Finished tr final ->
  planner_proposal final <> [] /\ reviewer_feedback final <> []
  /\ (truthy (dict_get (reviewer_feedback final) "has_issues" (PBool false))
      = false
      \/ turn_count final >= max_turns)
  /\ exists tr' u, tr = (tr' ++ [(supervisor, u)])%list.
Proof.
  intros H. apply run_from_finished_end in H.
  destruct H as [Hend Hlast].
  destruct (router_end_inv _ Hend) as (Hp & Hf & Hi).
  repeat split; assumption.
Qed.

Lemma finished_run_is_settled_witness :
  planner_proposal (sample_state 5) <> []
  /\ reviewer_feedback (sample_state 5) <> []
  /\ (truthy (dict_get (reviewer_feedback (sample_state 5)) "has_issues"
                       (PBool false)) = false
      \/ turn_count (sample_state 5) >= max_turns)
  /\ exists tr' u, loop_trace = (tr' ++ [(supervisor, u)])%list.
Proof.
  apply (finished_run_is_settled
           sample_loads sample_dumps sample_strip plan_issues_plan 20
           (initial_state "X" false)).
  vm_compute. reflexivity.
Defined.

(** X4: a finished execution has one supervisor step more than agent steps,
    so an odd number of steps, and its final [turn_count] is the initial one
    plus the number of agent steps plus one. *)
Theorem turn_count_counts_agent_steps
  (json_loads : string -> option pyval) (json_dumps : pyval -> string)
  (str_strip : string -> string) (client : client_fn)
  (fuel : nat) (s0 : AgentState) (tr : trace) (final : AgentState) :
  graph_stream json_loads json_dumps str_strip client fuel s0
  = Finished tr final ->
  executions supervisor tr = S (agent_steps tr)
  /\ List.length tr = (2 * agent_steps tr + 1)%nat
  /\ turn_count final = turn_count s0 + Z.of_nat (agent_steps tr) + 1.
Proof.
  intros H. unfold graph_stream in H.
  pose proof (run_from_finished_counts _ _ _ _ _ _ _ _ _ _ H) as Hc.
  cbn [node_eqb] in Hc.
  split; [exact Hc|]. split.
  - rewrite length_by_node. unfold agent_steps in *. lia.
  - pose proof (run_from_turn_discipline json_loads json_dumps str_strip
                  client fuel supervisor 0%nat s0) as Hd.
    rewrite H in Hd. cbn [outcome_trace] in Hd.
    apply run_from_final in H. subst final.
    rewrite (turn_discipline_count _ _ Hd), Hc. lia.
Qed.

Lemma turn_count_counts_agent_steps_witness :
  executions supervisor loop_trace = S (agent_steps loop_trace)
  /\ List.length loop_trace = (2 * agent_steps loop_trace + 1)%nat
  /\ turn_count (sample_state 5)
     = turn_count (initial_state "X" false)
       + Z.of_nat (agent_steps loop_trace) + 1.
Proof.
  apply (turn_count_counts_agent_steps
           sample_loads sample_dumps sample_strip plan_issues_plan 20
           (initial_state "X" false)).
  vm_compute. reflexivity.
Defined.

(** ** The runs from a fresh state *)

Section FreshRuns.

Variable json_loads : string -> option pyval.
Variable json_dumps : pyval -> string.
Variable str_strip : string -> string.
Variable client : client_fn.

(** From a state without proposal and feedback, the first four steps are
    supervisor, planner, supervisor, reviewer, provided the planner stores a
    non-empty proposal. *)
Lemma fresh_run_first_review fuel s0 p :
  planner_proposal s0 = [] -> reviewer_feedback s0 = [] ->
  let s1 := apply_update s0 (supervisor_node s0) in
  let s2 := apply_update s1 (upd_planner_proposal p) in
  let s3 := apply_update s2 (supervisor_node s2) in
  let f := reviewer_node json_loads json_dumps str_strip (client 1%nat) s3 in
  planner_node json_loads str_strip (client 0%nat) s1
  = upd_planner_proposal p ->
  p <> [] ->
  run_from json_loads json_dumps str_strip client (4 + fuel) supervisor
           0%nat s0
  = cons_step (supervisor, supervisor_node s0)
      (cons_step (planner, upd_planner_proposal p)
         (cons_step (supervisor, supervisor_node s2)
            (cons_step (reviewer, f)
               (run_from json_loads json_dumps str_strip client fuel
                  supervisor 2%nat (apply_update s3 f))))).
Proof.
  intros Hp0 Hf0 s1 s2 s3 f Hplan Hp. cbn [Nat.add].
  rewrite run_supervisor_planner by (apply router_no_proposal; exact Hp0).
  rewrite run_planner. fold s1. rewrite Hplan. fold s2.
  rewrite run_supervisor_reviewer
    by (apply router_no_feedback; [exact Hp|exact Hf0]).
  rewrite run_reviewer. reflexivity.
Qed.

Hypothesis client_ok : never_empty_object json_loads str_strip client.


End FreshRuns.



(** X6: when the client fails on the planner's call and on the reviewer's
    call, the run from a fresh state is supervisor, planner, supervisor,
    reviewer, supervisor: both error records are stored, the failed review
    counts as an approval, and the run ends at turn 3 without a retry. *)
Theorem failing_client_run_stops_after_review
  (json_loads : string -> option pyval) (json_dumps : pyval -> string)
  (str_strip : string -> string) (client : client_fn)
  (fuel : nat) (s0 : AgentState) (e0 e1 : exn) :
  (forall model prompt, client 0%nat model prompt = Raise e0) ->
  (forall model prompt, client 1%nat model prompt = Raise e1) ->
  planner_proposal s0 = [] -> reviewer_feedback s0 = [] ->
  turn_count s0 = 0 -> (5 <= fuel)%nat ->
  graph_stream json_loads json_dumps str_strip client fuel s0
  = Finished
      [(supervisor, upd_turn_count 1);
       (planner, upd_planner_proposal (error_proposal e0));
       (supervisor, upd_turn_count 2);
       (reviewer, upd_reviewer_feedback (error_feedback e1));
       (supervisor, upd_turn_count 3)]
      (mkState (title s0) (content s0) (email s0) (strict s0) (task s0)
               (llm s0) (error_proposal e0) (error_feedback e1) 3).
Proof.
  intros H0 H1 Hp0 Hf0 Ht0 Hfuel. unfold graph_stream.
  replace fuel with (4 + (1 + (fuel - 5)))%nat by lia.
  generalize (fuel - 5)%nat as extra. intros extra.
  rewrite (fresh_run_first_review json_loads json_dumps str_strip client
             _ s0 (error_proposal e0) Hp0 Hf0);
    [|apply planner_client_error, H0|discriminate].
  rewrite (reviewer_client_error json_loads json_dumps str_strip _ _ e1)
    by apply H1.
  cbn [Nat.add].
  rewrite run_supervisor_end by reflexivity.
  unfold supervisor_node. cbn. rewrite Ht0. reflexivity.
Qed.

Lemma failing_client_run_stops_after_review_witness :
  graph_stream sample_loads sample_dumps sample_strip (failing "down") 5
               (initial_state "X" false)
  = Finished
      [(supervisor, upd_turn_count 1);
       (planner, upd_planner_proposal
                   (error_proposal (Exn "ConnectionError" "down")));
       (supervisor, upd_turn_count 2);
       (reviewer, upd_reviewer_feedback
                    (error_feedback (Exn "ConnectionError" "down")));
       (supervisor, upd_turn_count 3)]
      (mkState "LangGraph Agent Task" "X" "user@example.com" false "X"
               "smollm:1.7b"
               (error_proposal (Exn "ConnectionError" "down"))
               (error_feedback (Exn "ConnectionError" "down")) 3).
Proof.
  apply (failing_client_run_stops_after_review
           sample_loads sample_dumps sample_strip (failing "down") 5
           (initial_state "X" false)
           (Exn "ConnectionError" "down") (Exn "ConnectionError" "down"));
    try reflexivity; lia.
Defined.

(** ** The client along a run *)

Lemma planner_node_ext
  (json_loads : string -> option pyval) (str_strip : string -> string)
  (g1 g2 : generate_fn) (s : AgentState) :
  (forall model prompt, g1 model prompt = g2 model prompt) ->
  planner_node json_loads str_strip g1 s
  = planner_node json_loads str_strip g2 s.
Proof.
  intros H. unfold planner_node, planner_try. now rewrite H.
Qed.

Lemma reviewer_node_ext
  (json_loads : string -> option pyval) (json_dumps : pyval -> string)
  (str_strip : string -> string) (g1 g2 : generate_fn) (s : AgentState) :
  (forall model prompt, g1 model prompt = g2 model prompt) ->
  reviewer_node json_loads json_dumps str_strip g1 s
  = reviewer_node json_loads json_dumps str_strip g2 s.
Proof.
  intros H. unfold reviewer_node, reviewer_try. now rewrite H.
Qed.

Lemma agent_steps_cons (m : node) (u : update) (tr : trace) :
  agent_steps ((m, u) :: tr)
  = ((if node_eqb m supervisor then 0 else 1) + agent_steps tr)%nat.
Proof.
  unfold agent_steps. rewrite !executions_cons.
  destruct m; cbn [node_eqb]; lia.
Qed.


Section ClientFacts.

Variable json_loads : string -> option pyval.
Variable json_dumps : pyval -> string.
Variable str_strip : string -> string.

Lemma run_supervisor_unfold (client : client_fn) fuel calls s :
  run_from json_loads json_dumps str_strip client (S fuel) supervisor calls s
  = match next_node supervisor (apply_update s (supervisor_node s)) with
    | Raise e => Aborted [(supervisor, supervisor_node s)] e
    | Ok None =>
        Finished [(supervisor, supervisor_node s)]
                 (apply_update s (supervisor_node s))
    | Ok (Some n') =>
        cons_step (supervisor, supervisor_node s)
          (run_from json_loads json_dumps str_strip client fuel n' calls
             (apply_update s (supervisor_node s)))
    end.
Proof. reflexivity. Qed.

(** A run reads the client at one index per agent step, counting up from
    the number of calls made before. *)
Lemma run_from_client_ext (c1 c2 : client_fn) (fuel : nat) :
  forall n calls1 calls2 s,
  (forall i,
      (i < agent_steps
             (outcome_trace
                (run_from json_loads json_dumps str_strip c1 fuel n
                          calls1 s)))%nat ->
      forall model prompt,
        c1 (calls1 + i)%nat model prompt = c2 (calls2 + i)%nat model prompt) ->
  run_from json_loads json_dumps str_strip c1 fuel n calls1 s
  = run_from json_loads json_dumps str_strip c2 fuel n calls2 s.
Proof.
  induction fuel as [|fuel IH]; intros n calls1 calls2 s H; [reflexivity|].
  destruct n.
  - rewrite !run_supervisor_unfold. rewrite run_supervisor_unfold in H.
    destruct (next_node supervisor (apply_update s (supervisor_node s)))
      as [[n'|]|e]; try reflexivity.
    f_equal. apply IH. intros i Hi. apply H.
    rewrite outcome_trace_cons, agent_steps_cons. exact Hi.
  - rewrite run_planner in H.
    rewrite outcome_trace_cons, agent_steps_cons in H. cbn [node_eqb] in H.
    assert (H0 : forall model prompt,
               c1 calls1 model prompt = c2 calls2 model prompt).
    { intros model prompt. specialize (H 0%nat ltac:(lia) model prompt).
      now rewrite !Nat.add_0_r in H. }
    rewrite !run_planner.
    rewrite <- (planner_node_ext json_loads str_strip _ _ s H0).
    f_equal. apply IH. intros i Hi model prompt.
    specialize (H (S i) ltac:(lia) model prompt).
    now rewrite !Nat.add_succ_r in H.
  - rewrite run_reviewer in H.
    rewrite outcome_trace_cons, agent_steps_cons in H. cbn [node_eqb] in H.
    assert (H0 : forall model prompt,
               c1 calls1 model prompt = c2 calls2 model prompt).
    { intros model prompt. specialize (H 0%nat ltac:(lia) model prompt).
      now rewrite !Nat.add_0_r in H. }
    rewrite !run_reviewer.
    rewrite <- (reviewer_node_ext json_loads json_dumps str_strip _ _ s H0).
    f_equal. apply IH. intros i Hi model prompt.
    specialize (H (S i) ltac:(lia) model prompt).
    now rewrite !Nat.add_succ_r in H.
Qed.

Lemma never_empty_object_shift (k : nat) (client : client_fn) :
  never_empty_object json_loads str_strip client ->
  never_empty_object json_loads str_strip (shift_client k client).
Proof. intros H i model prompt response. apply H. Qed.

End ClientFacts.



(** ** [main] *)

Lemma truthy_str (x : string) : truthy (PStr x) = false <-> x = "".
Proof.
  cbn [truthy]. destruct (String.eqb_spec x ""); cbn; split; congruence.
Qed.



(** X9: when the client answers a model and a prompt the same way whenever
    it is called, the second execution [main] makes with [graph.invoke]
    repeats the streamed one: the final state printed is the state the
    streamed run ended in. *)
Theorem main_invoke_repeats_stream
  (json_loads : string -> option pyval) (json_dumps : pyval -> string)
  (str_strip str_lower : string -> string) (client : client_fn)
  (fuel : nat) (task_input strict_input : string)
  (tr : trace) (final : AgentState) :
  stationary client ->
  str_strip task_input <> "" ->
  graph_stream json_loads json_dumps str_strip client fuel
    (initial_state (str_strip task_input)
       (String.eqb (str_lower (str_strip strict_input)) "y"))
  = Finished tr final ->
  main json_loads json_dumps str_strip str_lower client fuel
       task_input strict_input
  = Completed tr final.
Proof.
  intros Hs Hne Hrun. unfold main.
  destruct (truthy (PStr (str_strip task_input))) eqn:Ht;
    [|apply truthy_str in Ht; contradiction].
  cbn [negb]. rewrite Hrun.
  assert (E : graph_stream json_loads json_dumps str_strip
                (shift_client (agent_steps tr) client) fuel
                (initial_state (str_strip task_input)
                   (String.eqb (str_lower (str_strip strict_input)) "y"))
              = Finished tr final).
  { rewrite <- Hrun. unfold graph_stream. apply run_from_client_ext.
    intros i _ model prompt. unfold shift_client.
    now rewrite (Hs (agent_steps tr + (0 + i))%nat), (Hs (0 + i)%nat). }
  now rewrite E.
Qed.

Lemma main_invoke_repeats_stream_witness :
  main sample_loads sample_dumps sample_strip sample_strip
       (always plan_text) 9 "X" "n"
  = Completed
      [(supervisor, upd_turn_count 1);
       (planner, upd_planner_proposal
                   [("plan", PStr "p"); ("steps", PList [])]);
       (supervisor, upd_turn_count 2);
       (reviewer, upd_reviewer_feedback
                    [("plan", PStr "p"); ("steps", PList [])]);
       (supervisor, upd_turn_count 3)]
      (mkState "LangGraph Agent Task" "X" "user@example.com" false "X"
               "smollm:1.7b" [("plan", PStr "p"); ("steps", PList [])]
               [("plan", PStr "p"); ("steps", PList [])] 3).
Proof.
  apply (main_invoke_repeats_stream
           sample_loads sample_dumps sample_strip sample_strip
           (always plan_text) 9 "X" "n").
  - intros i model prompt. reflexivity.
  - discriminate.
  - vm_compute. reflexivity.
Defined.

(** * Further properties of the agent steps *)


(** X10: whatever the client answers, the proposal the planner stores is a
    dict whose [steps], or the default [[]] when it has none, has a length:
    [len(proposal.get('steps', []))] cannot fail on a stored proposal.  The
    planner of the test keeps the same invariant. *)
Theorem stored_proposal_has_sized_steps
  (json_loads : string -> option pyval) (json_dumps : pyval -> string)
  (str_strip : string -> string) (dict_slice_error : exn)
  (generate : generate_fn) (s : AgentState) (t : CorrectionLoop.AgentState) :
  (exists d n,
      planner_node json_loads str_strip generate s = upd_planner_proposal d
      /\ py_len (dict_get d "steps" (PList [])) = Ok n)
  /\ (exists d n,
         CorrectionLoop.planner_node json_loads json_dumps str_strip
           dict_slice_error generate t = upd_planner_proposal d
         /\ py_len (dict_get d "steps" (PList [])) = Ok n).
Proof.
  split.
  - unfold planner_node, planner_try, coerce_proposal.
    destruct (generate (llm s) (planner_prompt s)) as [response|e];
      cbn [bind try_except]; [|now eexists _, _].
    destruct (json_loads (str_strip response)) as [v|];
      [|now eexists _, _].
    destruct v; cbn [method_get bind try_except]; try now eexists _, _.
    destruct (py_len (dict_get d "steps" (PList []))) eqn:Hn;
      cbn [bind try_except]; [|now eexists _, _].
    exists d, a. now split.
  - unfold CorrectionLoop.planner_node, CorrectionLoop.planner_try,
      coerce_proposal.
    destruct (generate (CorrectionLoop.llm t)
                (CorrectionLoop.planner_prompt json_dumps t))
      as [response|e]; cbn [bind try_except]; [|now eexists _, _].
    destruct (json_loads (str_strip response)) as [v|];
      [|now eexists _, _].
    destruct v; cbn [method_get bind try_except]; try now eexists _, _.
    destruct (py_len (dict_get d "steps" (PList []))) eqn:Hn;
      cbn [bind try_except]; [|now eexists _, _].
    destruct (CorrectionLoop.slice_100 _ _); cbn [bind try_except];
      [|now eexists _, _].
    destruct (print_formatted _ _); cbn [bind try_except];
      [|now eexists _, _].
    exists d, a. now split.
Qed.



(** X12: the reviewer is shown the stored proposal and the tone sentence
    chosen by [strict], and nothing else of the state: its prompt is the
    same for any two states with the same proposal and the same [strict],
    whatever their task, feedback and turn count. *)
Theorem reviewer_prompt_shows_plan_only
  (json_dumps : pyval -> string) (s s' : AgentState) :
  contains (reviewer_prompt json_dumps s)
           (json_dumps (PDict (planner_proposal s)))
  /\ contains (reviewer_prompt json_dumps s)
              (if strict s then "Be very strict and critical."
               else "Be balanced and constructive.")
  /\ (planner_proposal s' = planner_proposal s -> strict s' = strict s ->
      reviewer_prompt json_dumps s' = reviewer_prompt json_dumps s).
Proof.
  split; [|split].
  - unfold reviewer_prompt.
    apply contains_unlines
      with (l := json_dumps (PDict (planner_proposal s))).
    + cbn [In]. tauto.
    + apply contains_refl.
  - unfold reviewer_prompt.
    apply contains_unlines
      with (l := "Be " ++ (if strict s then "very strict and critical"
                           else "balanced and constructive") ++ ".").
    + cbn [In]. do 17 right. left. reflexivity.
    + destruct (strict s); apply contains_refl.
  - intros Hp Hs. unfold reviewer_prompt. now rewrite Hp, Hs.
Qed.

Lemma reviewer_prompt_shows_plan_only_witness :
  reviewer_prompt sample_dumps (sample_state 2)
  = reviewer_prompt sample_dumps (sample_state 4).
Proof.
  apply (reviewer_prompt_shows_plan_only
           sample_dumps (sample_state 4) (sample_state 2));
    reflexivity.
Defined.

(** * Further properties of the correction-loop test *)

(** X13: the forced reviewer of the test reports issues exactly when it is
    called below turn 3, and its review is never empty.  Called on a state
    with a proposal, it sends the run back to the planner at the next
    supervisor visit when the turn count is below 3, and ends the run there
    otherwise. *)
Theorem forced_review_decides_next_step (t : CorrectionLoop.AgentState) :
  let t1 := CorrectionLoop.apply_update t
              (CorrectionLoop.reviewer_node_always_issues t) in
  let t2 := CorrectionLoop.apply_update t1
              (CorrectionLoop.supervisor_node t1) in
  CorrectionLoop.reviewer_feedback t1 <> []
  /\ dict_get (CorrectionLoop.reviewer_feedback t1) "has_issues"
              (PBool false)
     = PBool (CorrectionLoop.turn_count t <? 3)
  /\ (CorrectionLoop.planner_proposal t <> [] ->
      CorrectionLoop.router_logic t2
      = if CorrectionLoop.turn_count t <? 3 then "planner" else END).
Proof.
  cbn zeta. unfold CorrectionLoop.reviewer_node_always_issues.
  destruct (Z.ltb_spec (CorrectionLoop.turn_count t) 3) as [Hlt|Hge].
  - split; [discriminate|]. split; [reflexivity|].
    intros Hp. unfold CorrectionLoop.router_logic.
    cbn [CorrectionLoop.apply_update CorrectionLoop.supervisor_node
         CorrectionLoop.planner_proposal CorrectionLoop.reviewer_feedback
         CorrectionLoop.turn_count].
    apply truthy_dict_true in Hp. rewrite Hp. cbn [negb truthy].
    change (dict_get _ "has_issues" (PBool false)) with (PBool true).
    cbn [truthy].
    destruct (Z.geb_spec (CorrectionLoop.turn_count t + 1) 5);
      [lia|reflexivity].
  - split; [discriminate|]. split; [reflexivity|].
    intros Hp. unfold CorrectionLoop.router_logic.
    cbn [CorrectionLoop.apply_update CorrectionLoop.supervisor_node
         CorrectionLoop.planner_proposal CorrectionLoop.reviewer_feedback
         CorrectionLoop.turn_count].
    apply truthy_dict_true in Hp. rewrite Hp. cbn [negb truthy].
    change (dict_get _ "has_issues" (PBool false)) with (PBool false).
    reflexivity.
Qed.

Lemma forced_review_decides_next_step_witness :
  CorrectionLoop.router_logic
    (CorrectionLoop.apply_update
       (CorrectionLoop.apply_update (CorrectionLoop.sample_state 2)
          (CorrectionLoop.reviewer_node_always_issues
             (CorrectionLoop.sample_state 2)))
       (CorrectionLoop.supervisor_node
          (CorrectionLoop.apply_update (CorrectionLoop.sample_state 2)
             (CorrectionLoop.reviewer_node_always_issues
                (CorrectionLoop.sample_state 2)))))
  = "planner".
Proof.
  destruct (forced_review_decides_next_step (CorrectionLoop.sample_state 2))
    as (_ & _ & H).
  apply H. discriminate.
Defined.

(** X14: the graph of the test, run from its initial state with a client
    none of whose responses parses to [{}], reviews once, at turn 2, and
    never again: the run is supervisor, planner, supervisor, reviewer,
    supervisor, planner, supervisor, planner, supervisor, and it ends at
    turn 5 with [has_issues] still true.  The approving branch of the forced
    reviewer is not reached. *)
Theorem test_graph_never_approves
  (json_loads : string -> option pyval) (json_dumps : pyval -> string)
  (str_strip : string -> string) (dict_slice_error : exn)
  (client : client_fn) (task : string) (fuel : nat) :
  never_empty_object json_loads str_strip client ->
  (9 <= fuel)%nat ->
  exists tr final,
    CorrectionLoop.graph_stream json_loads json_dumps str_strip
      dict_slice_error client fuel (CorrectionLoop.initial_state task)
    = CorrectionLoop.Finished tr final
    /\ steps_of tr
       = [supervisor; planner; supervisor; reviewer; supervisor;
          planner; supervisor; planner; supervisor]
    /\ executions reviewer tr = 1%nat
    /\ dict_get (CorrectionLoop.reviewer_feedback final) "has_issues"
                (PBool false) = PBool true
    /\ CorrectionLoop.turn_count final = 5.
Proof.
  intros Hc Hfuel.
  exact (correction_loop_reviews_once json_loads json_dumps str_strip
           dict_slice_error client Hc task fuel Hfuel).
Qed.

Lemma test_graph_never_approves_witness :
  exists tr final,
    CorrectionLoop.graph_stream sample_loads sample_dumps sample_strip
      (Exn "TypeError" "unhashable type: 'slice'") (always plan_text) 9
      (CorrectionLoop.initial_state "X")
    = CorrectionLoop.Finished tr final
    /\ steps_of tr
       = [supervisor; planner; supervisor; reviewer; supervisor;
          planner; supervisor; planner; supervisor]
    /\ executions reviewer tr = 1%nat
    /\ dict_get (CorrectionLoop.reviewer_feedback final) "has_issues"
                (PBool false) = PBool true
    /\ CorrectionLoop.turn_count final = 5.
Proof.
  apply (test_graph_never_approves
           sample_loads sample_dumps sample_strip
           (Exn "TypeError" "unhashable type: 'slice'") (always plan_text)
           "X" 9).
  - intros i model prompt response H. injection H as <-.
    vm_compute. discriminate.
  - lia.
Defined.

Lemma test_run_keeps_task
  (json_loads : string -> option pyval) (json_dumps : pyval -> string)
  (str_strip : string -> string) (dict_slice_error : exn)
  (client : client_fn) (fuel : nat) : forall n calls s tr final,
  CorrectionLoop.run_from json_loads json_dumps str_strip dict_slice_error
    client fuel n calls s = CorrectionLoop.Finished tr final ->
  CorrectionLoop.task final = CorrectionLoop.task s.
Proof.
  induction fuel as [|fuel IH]; intros n calls s tr final; [discriminate|].
  cbn [CorrectionLoop.run_from].
  destruct (CorrectionLoop.run_node json_loads json_dumps str_strip
              dict_slice_error client n calls s) as [u calls'].
  assert (Ht : CorrectionLoop.task (CorrectionLoop.apply_update s u)
               = CorrectionLoop.task s) by now destruct u.
  destruct (CorrectionLoop.next_node n (CorrectionLoop.apply_update s u))
    as [[n'|]|e]; [|intros [= <- <-]; exact Ht|discriminate].
  destruct (CorrectionLoop.run_from json_loads json_dumps str_strip
              dict_slice_error client fuel n' calls'
              (CorrectionLoop.apply_update s u))
    as [tr' final'| |] eqn:Hr; cbn [CorrectionLoop.cons_step];
    try discriminate.
  intros [= <- <-]. rewrite (IH _ _ _ _ _ Hr). exact Ht.
Qed.

(** X15: [main] of the test never exits early: a blank task line is
    replaced by the default task.  With a client none of whose responses
    parses to [{}] and room for nine steps it completes both executions;
    the streamed one has the nine steps with a single review, and the final
    state it prints is at turn 5 with [has_issues] true, so the approval
    its closing remarks announce has not taken place. *)
Theorem test_main_ends_unapproved
  (json_loads : string -> option pyval) (json_dumps : pyval -> string)
  (str_strip : string -> string) (dict_slice_error : exn)
  (client : client_fn) (fuel : nat) (task_input : string) :
  never_empty_object json_loads str_strip client ->
  (9 <= fuel)%nat ->
  exists streamed final,
    test_main json_loads json_dumps str_strip dict_slice_error client fuel
              task_input
    = TestCompleted streamed final
    /\ steps_of streamed
       = [supervisor; planner; supervisor; reviewer; supervisor;
          planner; supervisor; planner; supervisor]
    /\ dict_get (CorrectionLoop.reviewer_feedback final) "has_issues"
                (PBool false) = PBool true
    /\ CorrectionLoop.turn_count final = 5
    /\ CorrectionLoop.task final
       = (if String.eqb (str_strip task_input) "" then default_task
          else str_strip task_input).
Proof.
  intros Hc Hfuel. unfold test_main.
  set (task := if negb (truthy (PStr (str_strip task_input)))
               then default_task else str_strip task_input).
  destruct (correction_loop_reviews_once json_loads json_dumps str_strip
              dict_slice_error client Hc task fuel Hfuel)
    as (tr & final1 & -> & Hsteps & _).
  destruct (correction_loop_reviews_once json_loads json_dumps str_strip
              dict_slice_error (shift_client (executions planner tr) client)
              (never_empty_object_shift json_loads str_strip _ _ Hc)
              task fuel Hfuel)
    as (tr2 & final & Hrun & _ & _ & Hi & Ht).
  rewrite Hrun. exists tr, final.
  split; [reflexivity|]. split; [exact Hsteps|].
  split; [exact Hi|]. split; [exact Ht|].
  unfold CorrectionLoop.graph_stream in Hrun.
  rewrite (test_run_keeps_task _ _ _ _ _ _ _ _ _ _ _ Hrun).
  unfold task. cbn [CorrectionLoop.initial_state CorrectionLoop.task truthy].
  now rewrite negb_involutive.
Qed.

Lemma test_main_ends_unapproved_witness :
  exists streamed final,
    test_main sample_loads sample_dumps sample_strip
              (Exn "TypeError" "unhashable type: 'slice'")
              (always plan_text) 9 ""
    = TestCompleted streamed final
    /\ steps_of streamed
       = [supervisor; planner; supervisor; reviewer; supervisor;
          planner; supervisor; planner; supervisor]
    /\ dict_get (CorrectionLoop.reviewer_feedback final) "has_issues"
                (PBool false) = PBool true
    /\ CorrectionLoop.turn_count final = 5
    /\ CorrectionLoop.task final
       = (if String.eqb (sample_strip "") "" then default_task
          else sample_strip "").
Proof.
  apply (test_main_ends_unapproved
           sample_loads sample_dumps sample_strip
           (Exn "TypeError" "unhashable type: 'slice'")
           (always plan_text) 9 "").
  - intros i model prompt response H. injection H as <-.
    vm_compute. discriminate.
  - lia.
Defined.

(** X16: the planner of the test absorbs failures as the planner of
    [langgraph_agents.py] does: an exception of the client gives the error
    record with its text, a response that does not parse gives the record
    with the stripped response as [plan] and empty [steps], and a response
    that parses to something that is no object gives the error record of the
    missing [get]. *)
Theorem test_planner_absorbs_failures
  (json_loads : string -> option pyval) (json_dumps : pyval -> string)
  (str_strip : string -> string) (dict_slice_error : exn)
  (generate : generate_fn) (t : CorrectionLoop.AgentState) :
  (forall e,
      generate (CorrectionLoop.llm t)
               (CorrectionLoop.planner_prompt json_dumps t) = Raise e ->
      CorrectionLoop.planner_node json_loads json_dumps str_strip
        dict_slice_error generate t
      = upd_planner_proposal
          [("plan", PStr ("Error: " ++ exn_str e)); ("steps", PList [])])
  /\ (forall response,
         generate (CorrectionLoop.llm t)
                  (CorrectionLoop.planner_prompt json_dumps t) = Ok response ->
         (json_loads (str_strip response) = None ->
          CorrectionLoop.planner_node json_loads json_dumps str_strip
            dict_slice_error generate t
          = upd_planner_proposal
              [("plan", PStr (str_strip response)); ("steps", PList [])])
         /\ (forall v,
               json_loads (str_strip response) = Some v ->
               (forall d, v <> PDict d) ->
               CorrectionLoop.planner_node json_loads json_dumps str_strip
                 dict_slice_error generate t
               = upd_planner_proposal (error_proposal (no_get_error v)))).
Proof.
  split.
  - intros e Hg.
    unfold CorrectionLoop.planner_node, CorrectionLoop.planner_try.
    now rewrite Hg.
  - intros response Hg. split.
    + intros Hl.
      unfold CorrectionLoop.planner_node, CorrectionLoop.planner_try,
        coerce_proposal.
      rewrite Hg. cbn [bind]. now rewrite Hl.
    + intros v Hl Hv.
      unfold CorrectionLoop.planner_node, CorrectionLoop.planner_try,
        coerce_proposal.
      rewrite Hg. cbn [bind]. rewrite Hl.
      destruct v; try reflexivity. now destruct (Hv d).
Qed.

Lemma test_planner_absorbs_failures_witness :
  CorrectionLoop.planner_node sample_loads sample_dumps sample_strip
    (Exn "TypeError" "unhashable type: 'slice'")
    (failing "down" 0%nat) (CorrectionLoop.initial_state "X")
  = upd_planner_proposal
      [("plan", PStr "Error: down"); ("steps", PList [])]
  /\ CorrectionLoop.planner_node sample_loads sample_dumps sample_strip
       (Exn "TypeError" "unhashable type: 'slice'")
       (always "no json" 0%nat) (CorrectionLoop.initial_state "X")
     = upd_planner_proposal [("plan", PStr "no json"); ("steps", PList [])].
Proof.
  split.
  - destruct (test_planner_absorbs_failures
                sample_loads sample_dumps sample_strip
                (Exn "TypeError" "unhashable type: 'slice'")
                (failing "down" 0%nat) (CorrectionLoop.initial_state "X"))
      as [H _].
    apply (H (Exn "ConnectionError" "down")). reflexivity.
  - destruct (test_planner_absorbs_failures
                sample_loads sample_dumps sample_strip
                (Exn "TypeError" "unhashable type: 'slice'")
                (always "no json" 0%nat) (CorrectionLoop.initial_state "X"))
      as [_ H].
    apply (H "no json"); reflexivity.
Defined.

(** * The reviewer's progress message *)


